(** * Cluster credential resolution: forms/cluster.go

    A shallow embedding of [internal/forms/cluster.go] (the cluster forms
    [CreateClusterForm] and [ResolveClusterForm]) together with the
    properties of its natural-language specification.

    Go values are modelled as follows:
    - [string] is a Rocq [string]; [[]byte] is a [list byte]; the
      conversion [[]byte(s)] is [list_byte_of_string];
    - [uint] is [N] (no arithmetic of the file can wrap);
    - a pointer that may be [nil] is an [option]; dereferencing [nil]
      is the outcome [Panic];
    - a [map[string]T] is a [gmap string T]; indexing a missing key
      yields the zero value of [T] ([None] for a pointer type);
    - a function returning [(T, error)] returns a [result T]; the
      repository is threaded through as explicit state. *)

From Stdlib Require Import Strings.Ascii Strings.String Strings.Byte NArith List Bool Lia.
From stdpp Require Import base option strings gmap list.

Local Open Scope string_scope.
Local Open Scope list_scope.
Local Open Scope N_scope.

(** ** Outcomes of Go calls *)

(** Go [error] values that the file produces or forwards. The offset
    carried by [base64.CorruptInputError] is not tracked. *)
Inductive error : Type :=
  | errors_New (msg : string)
  | CorruptInputError
  | ExternalError (pkg msg : string).

(** [Ok v] is a return with a [nil] error, [Err e] a return with a
    non-[nil] error, [Panic] a run-time panic (nil dereference). *)
Inductive result (A : Type) : Type :=
  | Ok (v : A)
  | Err (e : error)
  | Panic.

Arguments Ok {A} v.
Arguments Err {A} e.
Arguments Panic {A}.

Definition is_Ok {A} (r : result A) : bool :=
  match r with Ok _ => true | _ => false end.

Definition is_Err {A} (r : result A) : bool :=
  match r with Err _ => true | _ => false end.

Definition is_Panic {A} (r : result A) : bool :=
  match r with Panic => true | _ => false end.

(** [len(b) > 0] on a byte slice and [s != ""] on a string. *)
Definition nonempty_bytes (b : list byte) : bool :=
  match b with [] => false | _ :: _ => true end.

Definition nonempty_string (s : string) : bool :=
  negb (String.eqb s "").

(** ** encoding/base64: [base64.StdEncoding.DecodeString] *)

Module base64.

  (** [decodeMap] of the standard alphabet; Go's [0xff] entry is [None]. *)
Definition decodeMap (c : ascii) : option N :=
    let n := N_of_ascii c in
    if (65 <=? n) && (n <=? 90) then Some (n - 65)
    else if (97 <=? n) && (n <=? 122) then Some (n - 71)
    else if (48 <=? n) && (n <=? 57) then Some (n + 4)
    else if n =? 43 then Some 62
    else if n =? 47 then Some 63
    else None.

Definition padChar : ascii := "="%char.

Definition isNewline (c : ascii) : bool :=
    Ascii.eqb c "010"%char || Ascii.eqb c "013"%char.

Definition toByte (n : N) : byte := byte_of_ascii (ascii_of_N (N.land n 255)).

  (** The 24-bit value assembled from four 6-bit digits. *)
Definition assemble (a b c d : N) : N :=
    N.lor (N.lor (N.lor (N.shiftl a 18) (N.shiftl b 12)) (N.shiftl c 6)) d.

  (** Output of a quantum holding [dlen] digits: [dlen - 1] bytes. *)
Definition quantum4 (a b c d : N) : list byte :=
    let val := assemble a b c d in
    [toByte (N.shiftr val 16); toByte (N.shiftr val 8); toByte val].

Definition quantum3 (a b c : N) : list byte :=
    let val := assemble a b c 0 in
    [toByte (N.shiftr val 16); toByte (N.shiftr val 8)].

Definition quantum2 (a b : N) : list byte :=
    let val := assemble a b 0 0 in
    [toByte (N.shiftr val 16)].

  (** The inner loops [for si < len(src) && (src[si] == '\n' || ...)]. *)
Fixpoint skipNewlines (src : list ascii) : list ascii :=
    match src with
    | c :: rest => if isNewline c then skipNewlines rest else src
    | [] => []
    end.

Definition atEnd (src : list ascii) : bool :=
    match src with [] => true | _ :: _ => false end.

  (** [Decode]/[decodeQuantum] as one pass over the input: [dbuf] holds
      the digits of the quantum being read (its length is Go's [j]),
      [dst] the bytes written so far. Newlines are skipped everywhere;
      padding ends the input; the encoding is padded and not strict. *)
Fixpoint decode (src : list ascii) (dbuf : list N) (dst : list byte)
    : result (list byte) :=
    match src with
    | [] =>
        match dbuf with
        | [] => Ok dst
        | _ :: _ => Err CorruptInputError
        end
    | c :: rest =>
        match decodeMap c with
        | Some out =>
            match dbuf with
            | [d0; d1; d2] => decode rest [] (dst ++ quantum4 d0 d1 d2 out)
            | _ => decode rest (dbuf ++ [out]) dst
            end
        | None =>
            if isNewline c then decode rest dbuf dst
            else if negb (Ascii.eqb c padChar) then Err CorruptInputError
            else
              match dbuf with
              | [d0; d1] =>
                  match skipNewlines rest with
                  | [] => Err CorruptInputError
                  | c2 :: rest2 =>
                      if negb (Ascii.eqb c2 padChar) then Err CorruptInputError
                      else if atEnd (skipNewlines rest2)
                           then Ok (dst ++ quantum2 d0 d1)
                           else Err CorruptInputError
                  end
              | [d0; d1; d2] =>
                  if atEnd (skipNewlines rest)
                  then Ok (dst ++ quantum3 d0 d1 d2)
                  else Err CorruptInputError
              | _ => Err CorruptInputError
              end
        end
    end.

Definition DecodeString (s : string) : result (list byte) :=
    decode (list_ascii_of_string s) [] [].

End base64.

(** ** regexp: the pattern used to sniff base64 text *)

Module regexp.

Inductive regex : Type :=
    | Void
    | Eps
    | Class (p : ascii -> bool)
    | Cat (r1 r2 : regex)
    | Alt (r1 r2 : regex)
    | Star (r : regex).

Fixpoint nullable (r : regex) : bool :=
    match r with
    | Void => false
    | Eps => true
    | Class _ => false
    | Cat r1 r2 => nullable r1 && nullable r2
    | Alt r1 r2 => nullable r1 || nullable r2
    | Star _ => true
    end.

Fixpoint deriv (c : ascii) (r : regex) : regex :=
    match r with
    | Void => Void
    | Eps => Void
    | Class p => if p c then Eps else Void
    | Cat r1 r2 =>
        if nullable r1
        then Alt (Cat (deriv c r1) r2) (deriv c r2)
        else Cat (deriv c r1) r2
    | Alt r1 r2 => Alt (deriv c r1) (deriv c r2)
    | Star r1 => Cat (deriv c r1) (Star r1)
    end.

Fixpoint matches (r : regex) (s : list ascii) : bool :=
    match s with
    | [] => nullable r
    | c :: rest => matches (deriv c r) rest
    end.

  (** [r{n}] and [r?]. *)
Fixpoint Rep (n : nat) (r : regex) : regex :=
    match n with
    | O => Eps
    | S k => Cat r (Rep k r)
    end.

Definition Opt (r : regex) : regex := Alt r Eps.

Definition Lit (c : ascii) : regex := Class (Ascii.eqb c).

  (** The pattern is anchored by [^] and [$] (no flags: [$] is the end of
      the text), so [MatchString] is a match of the whole string. *)
Definition MatchString (r : regex) (s : string) : bool :=
    matches r (list_ascii_of_string s).

End regexp.

(** The class [[A-Za-z0-9+/]]. *)
Definition base64Class (c : ascii) : bool :=
  let n := N_of_ascii c in
  ((65 <=? n) && (n <=? 90)) || ((97 <=? n) && (n <=? 122))
  || ((48 <=? n) && (n <=? 57)) || (n =? 43) || (n =? 47).

(** [^([A-Za-z0-9+/]{4})*([A-Za-z0-9+/]{3}=|[A-Za-z0-9+/]{2}==)?$] *)
Definition base64Regexp : regexp.regex :=
  let B := regexp.Class base64Class in
  let eq := regexp.Lit "="%char in
  regexp.Cat
    (regexp.Star (regexp.Rep 4 B))
    (regexp.Opt (regexp.Alt (regexp.Cat (regexp.Rep 3 B) eq)
                            (regexp.Cat (regexp.Rep 2 B) (regexp.Cat eq eq)))).

(** ** strings and net/url: the parts of [url.URL] the builder touches *)

Module strings.

  (** [strings.LastIndexByte]; Go's [-1] is [None]. *)
Fixpoint LastIndexByte (s : string) (c : ascii) : option nat :=
    match s with
    | EmptyString => None
    | String x rest =>
        match LastIndexByte rest c with
        | Some i => Some (S i)
        | None => if Ascii.eqb x c then Some O else None
        end
    end.

Definition HasPrefix (s p : string) : bool := String.prefix p s.

Fixpoint HasSuffix1 (s : string) (c : ascii) : bool :=
    match s with
    | EmptyString => false
    | String x EmptyString => Ascii.eqb x c
    | String _ rest => HasSuffix1 rest c
    end.

  (** [s[i:]] and [s[:i]] for [i <= len(s)]. *)
Fixpoint from (i : nat) (s : string) : string :=
    match i, s with
    | O, _ => s
    | S k, String _ rest => from k rest
    | S _, EmptyString => EmptyString
    end.

Fixpoint upto (i : nat) (s : string) : string :=
    match i, s with
    | O, _ => EmptyString
    | S k, String x rest => String x (upto k rest)
    | S _, EmptyString => EmptyString
    end.

  (** [strings.Join]. *)
Fixpoint Join (elems : list string) (sep : string) : string :=
    match elems with
    | [] => ""
    | [x] => x
    | x :: rest => x +:+ sep +:+ Join rest sep
    end.

End strings.

Module url.

Record URL : Type := mkURL {
    Scheme : string;
    Opaque : string;
    User : option (string * option string);
    Host : string;
    Path : string;
    RawPath : string;
    ForceQuery : bool;
    RawQuery : string;
    Fragment : string
  }.

Definition set_Host (h : string) (u : URL) : URL :=
    let '(mkURL a b c _ e f g i j) := u in mkURL a b c h e f g i j.

Definition isDigit (c : ascii) : bool :=
    let n := N_of_ascii c in (48 <=? n) && (n <=? 57).

Fixpoint allDigits (s : string) : bool :=
    match s with
    | EmptyString => true
    | String c rest => isDigit c && allDigits rest
    end.

  (** [validOptionalPort]: empty, or a colon followed by digits only. *)
Definition validOptionalPort (port : string) : bool :=
    match port with
    | EmptyString => true
    | String c rest => Ascii.eqb c ":"%char && allDigits rest
    end.

  (** [splitHostPort]: the port is what follows the last colon when
      that is a valid optional port; brackets around the host are
      removed. *)
Definition splitHostPort (hostPort : string) : string * string :=
    let '(host, port) :=
      match strings.LastIndexByte hostPort ":"%char with
      | Some colon =>
          if validOptionalPort (strings.from colon hostPort)
          then (strings.upto colon hostPort, strings.from (S colon) hostPort)
          else (hostPort, "")
      | None => (hostPort, "")
      end in
    let host :=
      if strings.HasPrefix host "[" && strings.HasSuffix1 host "]"%char
      then strings.upto (String.length host - 2) (strings.from 1 host)
      else host in
    (host, port).

Definition Port (u : URL) : string := snd (splitHostPort (Host u)).

Definition Hostname (u : URL) : string := fst (splitHostPort (Host u)).

End url.

(** ** k8s.io/client-go/tools/clientcmd/api: the parsed kubeconfig *)

Module api.

Module AuthProviderConfig.
Record t : Type := mk {
      Name : string;
      Config : gmap string string
    }.
End AuthProviderConfig.

Module AuthInfo.
Record t : Type := mk {
      LocationOfOrigin : string;
      ClientCertificateData : list byte;
      ClientKeyData : list byte;
      Token : string;
      Impersonate : string;
      ImpersonateGroups : list string;
      Username : string;
      Password : string;
      AuthProvider : option AuthProviderConfig.t
    }.
End AuthInfo.

Module Cluster.
Record t : Type := mk {
      LocationOfOrigin : string;
      Server : string;
      TLSServerName : string;
      InsecureSkipTLSVerify : bool;
      CertificateAuthorityData : list byte
    }.
End Cluster.

Module Context.
Record t : Type := mk {
      LocationOfOrigin : string;
      Cluster : string;
      AuthInfo : string;
      Namespace : string
    }.
End Context.

  (** The three maps hold pointers: a key that is absent reads as [nil]. *)
Module Config.
Record t : Type := mk {
      Clusters : gmap string Cluster.t;
      AuthInfos : gmap string AuthInfo.t;
      Contexts : gmap string Context.t;
      CurrentContext : string
    }.
End Config.

End api.

(** ** internal/models and internal/models/integrations *)

Module models.

  (** [type ClusterAuth string]. The declarations of the seven constants
      are outside the files at hand; the switch statements only need
      them to be pairwise distinct. *)
Definition ClusterAuth : Type := string.

Definition X509 : ClusterAuth := "x509".
Definition Basic : ClusterAuth := "basic".
Definition Bearer : ClusterAuth := "bearerToken".
Definition OIDC : ClusterAuth := "oidc".
Definition GCP : ClusterAuth := "gcp-sa".
Definition AWS : ClusterAuth := "aws-sa".
Definition Local : ClusterAuth := "local".

Definition knownMechanisms : list ClusterAuth :=
    [X509; Bearer; Basic; Local; OIDC; GCP; AWS].

Module ClusterCandidate.
Record t : Type := mk {
      ID : N;
      AuthMechanism : ClusterAuth;
      ProjectID : N;
      Name : string;
      Server : string;
      Kubeconfig : list byte
    }.
End ClusterCandidate.

Module ClusterResolverAll.
Record t : Type := mk {
      ClusterCAData : string;
      ClusterHostname : string;
      ClientCertData : string;
      ClientKeyData : string;
      OIDCIssuerCAData : string;
      TokenData : string;
      GCPKeyData : string;
      AWSAccessKeyID : string;
      AWSSecretAccessKey : string;
      AWSClusterID : string
    }.
End ClusterResolverAll.

Module Cluster.
Record t : Type := mk {
      ID : N;
      AuthMechanism : ClusterAuth;
      ProjectID : N;
      Name : string;
      Server : string;
      ClusterLocationOfOrigin : string;
      TLSServerName : string;
      InsecureSkipTLSVerify : bool;
      UserLocationOfOrigin : string;
      UserImpersonate : string;
      UserImpersonateGroups : string;
      CertificateAuthorityData : list byte;
      KubeIntegrationID : N;
      OIDCIntegrationID : N;
      GCPIntegrationID : N;
      AWSIntegrationID : N
    }.

Definition set_ID (v : N) (c : t) : t :=
      let '(mk _ b c0 d e f g h i j k l m n o p) := c in
      mk v b c0 d e f g h i j k l m n o p.
Definition set_Name (v : string) (c : t) : t :=
      let '(mk a b c0 _ e f g h i j k l m n o p) := c in
      mk a b c0 v e f g h i j k l m n o p.
Definition set_Server (v : string) (c : t) : t :=
      let '(mk a b c0 d _ f g h i j k l m n o p) := c in
      mk a b c0 d v f g h i j k l m n o p.
Definition set_UserImpersonateGroups (v : string) (c : t) : t :=
      let '(mk a b c0 d e f g h i j _ l m n o p) := c in
      mk a b c0 d e f g h i j v l m n o p.
Definition set_CertificateAuthorityData (v : list byte) (c : t) : t :=
      let '(mk a b c0 d e f g h i j k _ m n o p) := c in
      mk a b c0 d e f g h i j k v m n o p.
Definition set_KubeIntegrationID (v : N) (c : t) : t :=
      let '(mk a b c0 d e f g h i j k l _ n o p) := c in
      mk a b c0 d e f g h i j k l v n o p.
Definition set_OIDCIntegrationID (v : N) (c : t) : t :=
      let '(mk a b c0 d e f g h i j k l m _ o p) := c in
      mk a b c0 d e f g h i j k l m v o p.
Definition set_GCPIntegrationID (v : N) (c : t) : t :=
      let '(mk a b c0 d e f g h i j k l m n _ p) := c in
      mk a b c0 d e f g h i j k l m n v p.
Definition set_AWSIntegrationID (v : N) (c : t) : t :=
      let '(mk a b c0 d e f g h i j k l m n o _) := c in
      mk a b c0 d e f g h i j k l m n o v.
End Cluster.

End models.

Module ints.

Inductive KubeIntegrationName : Type :=
    | KubeX509 | KubeBasic | KubeBearer | KubeLocal.

Inductive OIDCIntegrationClient : Type :=
    | OIDCKube.

Module KubeIntegration.
Record t : Type := mk {
      ID : N;
      Mechanism : KubeIntegrationName;
      UserID : N;
      ProjectID : N;
      ClientCertificateData : list byte;
      ClientKeyData : list byte;
      Token : list byte;
      Username : list byte;
      Password : list byte;
      Kubeconfig : list byte
    }.

Definition set_ID (v : N) (k : t) : t :=
      let '(mk _ b c d e f g h i j) := k in mk v b c d e f g h i j.
Definition set_ClientCertificateData (v : list byte) (k : t) : t :=
      let '(mk a b c d _ f g h i j) := k in mk a b c d v f g h i j.
Definition set_ClientKeyData (v : list byte) (k : t) : t :=
      let '(mk a b c d e _ g h i j) := k in mk a b c d e v g h i j.
Definition set_Token (v : list byte) (k : t) : t :=
      let '(mk a b c d e f _ h i j) := k in mk a b c d e f v h i j.
Definition set_Username (v : list byte) (k : t) : t :=
      let '(mk a b c d e f g _ i j) := k in mk a b c d e f g v i j.
Definition set_Password (v : list byte) (k : t) : t :=
      let '(mk a b c d e f g h _ j) := k in mk a b c d e f g h v j.
End KubeIntegration.

Module OIDCIntegration.
Record t : Type := mk {
      ID : N;
      Client : OIDCIntegrationClient;
      UserID : N;
      ProjectID : N;
      IssuerURL : list byte;
      ClientID : list byte;
      ClientSecret : list byte;
      CertificateAuthorityData : list byte;
      IDToken : list byte;
      RefreshToken : list byte
    }.

Definition set_ID (v : N) (k : t) : t :=
      let '(mk _ b c d e f g h i j) := k in mk v b c d e f g h i j.
Definition set_IssuerURL (v : list byte) (k : t) : t :=
      let '(mk a b c d _ f g h i j) := k in mk a b c d v f g h i j.
Definition set_ClientID (v : list byte) (k : t) : t :=
      let '(mk a b c d e _ g h i j) := k in mk a b c d e v g h i j.
Definition set_ClientSecret (v : list byte) (k : t) : t :=
      let '(mk a b c d e f _ h i j) := k in mk a b c d e f v h i j.
Definition set_CertificateAuthorityData (v : list byte) (k : t) : t :=
      let '(mk a b c d e f g _ i j) := k in mk a b c d e f g v i j.
Definition set_IDToken (v : list byte) (k : t) : t :=
      let '(mk a b c d e f g h _ j) := k in mk a b c d e f g h v j.
Definition set_RefreshToken (v : list byte) (k : t) : t :=
      let '(mk a b c d e f g h i _) := k in mk a b c d e f g h i v.
End OIDCIntegration.

Module GCPIntegration.
Record t : Type := mk {
      ID : N;
      UserID : N;
      ProjectID : N;
      GCPKeyData : list byte
    }.

Definition set_ID (v : N) (k : t) : t :=
      let '(mk _ b c d) := k in mk v b c d.
Definition set_GCPKeyData (v : list byte) (k : t) : t :=
      let '(mk a b c _) := k in mk a b c v.
End GCPIntegration.

Module AWSIntegration.
Record t : Type := mk {
      ID : N;
      UserID : N;
      ProjectID : N;
      AWSClusterID : list byte;
      AWSAccessKeyID : list byte;
      AWSSecretAccessKey : list byte
    }.

Definition set_ID (v : N) (k : t) : t :=
      let '(mk _ b c d e f) := k in mk v b c d e f.
Definition set_AWSClusterID (v : list byte) (k : t) : t :=
      let '(mk a b c _ e f) := k in mk a b c v e f.
Definition set_AWSAccessKeyID (v : list byte) (k : t) : t :=
      let '(mk a b c d _ f) := k in mk a b c d v f.
Definition set_AWSSecretAccessKey (v : list byte) (k : t) : t :=
      let '(mk a b c d e _) := k in mk a b c d e v.
End AWSIntegration.

End ints.

(** ** Sequencing of fallible calls *)

(** [v, err := f(); if err != nil { return err }] on a [result]. *)
Definition bind {A B : Type} (r : result A) (k : A -> result B) : result B :=
  match r with
  | Ok v => k v
  | Err e => Err e
  | Panic => Panic
  end.

Notation "x <- r ;; k" := (bind r (fun x => k))
  (at level 100, r at next level, right associativity).

(** Reading through a pointer: [nil] panics. *)
Definition deref {A : Type} (p : option A) : result A :=
  match p with
  | Some v => Ok v
  | None => Panic
  end.

(** ** internal/repository: the persistence collaborator *)

Module repository.

(** Modelled from the spec: the storage behind [repository.Repository]
    is outside the files at hand. One store per entity type, with
    identifiers assigned on creation; [canQuery] is the switch of the
    in-memory test repository that makes every read and write fail. *)
Record Repository : Type := mk {
  canQuery : bool;
  clusterCandidates : list models.ClusterCandidate.t;
  clusters : list models.Cluster.t;
  kubeIntegrations : list ints.KubeIntegration.t;
  oidcIntegrations : list ints.OIDCIntegration.t;
  gcpIntegrations : list ints.GCPIntegration.t;
  awsIntegrations : list ints.AWSIntegration.t
}.

Definition set_clusters (v : list models.Cluster.t) (r : Repository) : Repository :=
  let '(mk a b _ d e f g) := r in mk a b v d e f g.
Definition set_kubeIntegrations (v : list ints.KubeIntegration.t) (r : Repository) : Repository :=
  let '(mk a b c _ e f g) := r in mk a b c v e f g.
Definition set_oidcIntegrations (v : list ints.OIDCIntegration.t) (r : Repository) : Repository :=
  let '(mk a b c d _ f g) := r in mk a b c d v f g.
Definition set_gcpIntegrations (v : list ints.GCPIntegration.t) (r : Repository) : Repository :=
  let '(mk a b c d e _ g) := r in mk a b c d e v g.
Definition set_awsIntegrations (v : list ints.AWSIntegration.t) (r : Repository) : Repository :=
  let '(mk a b c d e f _) := r in mk a b c d e f v.

(** A call that reads or writes the repository. *)
Definition M (A : Type) : Type := Repository -> result A * Repository.

Definition ret {A : Type} (v : A) : M A := fun repo => (Ok v, repo).

Definition fail {A : Type} (e : error) : M A := fun repo => (Err e, repo).

Definition lift {A : Type} (r : result A) : M A := fun repo => (r, repo).

Definition mbind {A B : Type} (m : M A) (k : A -> M B) : M B :=
  fun repo =>
    match m repo with
    | (Ok v, repo') => k v repo'
    | (Err e, repo') => (Err e, repo')
    | (Panic, repo') => (Panic, repo')
    end.

(** The identifier handed out for the next record of a store. *)
Definition nextID {A : Type} (store : list A) : N := N.of_nat (length store) + 1.

(** Modelled from the spec: [create(record) -> (record-with-id, error)]. *)
Definition CreateKubeIntegration (ki : ints.KubeIntegration.t) : M ints.KubeIntegration.t :=
  fun repo =>
    if canQuery repo then
      let ki' := ints.KubeIntegration.set_ID (nextID (kubeIntegrations repo)) ki in
      (Ok ki', set_kubeIntegrations (kubeIntegrations repo ++ [ki']) repo)
    else (Err (errors_New "Cannot write database"), repo).

(** Modelled from the spec: [create(record) -> (record-with-id, error)]. *)
Definition CreateOIDCIntegration (oidc : ints.OIDCIntegration.t) : M ints.OIDCIntegration.t :=
  fun repo =>
    if canQuery repo then
      let oidc' := ints.OIDCIntegration.set_ID (nextID (oidcIntegrations repo)) oidc in
      (Ok oidc', set_oidcIntegrations (oidcIntegrations repo ++ [oidc']) repo)
    else (Err (errors_New "Cannot write database"), repo).

(** Modelled from the spec: [create(record) -> (record-with-id, error)]. *)
Definition CreateGCPIntegration (gcp : ints.GCPIntegration.t) : M ints.GCPIntegration.t :=
  fun repo =>
    if canQuery repo then
      let gcp' := ints.GCPIntegration.set_ID (nextID (gcpIntegrations repo)) gcp in
      (Ok gcp', set_gcpIntegrations (gcpIntegrations repo ++ [gcp']) repo)
    else (Err (errors_New "Cannot write database"), repo).

(** Modelled from the spec: [create(record) -> (record-with-id, error)]. *)
Definition CreateAWSIntegration (aws : ints.AWSIntegration.t) : M ints.AWSIntegration.t :=
  fun repo =>
    if canQuery repo then
      let aws' := ints.AWSIntegration.set_ID (nextID (awsIntegrations repo)) aws in
      (Ok aws', set_awsIntegrations (awsIntegrations repo ++ [aws']) repo)
    else (Err (errors_New "Cannot write database"), repo).

(** Modelled from the spec: [create(record) -> (record-with-id, error)]. *)
Definition CreateCluster (cluster : models.Cluster.t) : M models.Cluster.t :=
  fun repo =>
    if canQuery repo then
      let cluster' := models.Cluster.set_ID (nextID (clusters repo)) cluster in
      (Ok cluster', set_clusters (clusters repo ++ [cluster']) repo)
    else (Err (errors_New "Cannot write database"), repo).

(** Modelled from the spec: [read(id) -> (record, error)], failing with
    the not-found error for an unknown id. *)
Definition ReadClusterCandidate (id : N) : M models.ClusterCandidate.t :=
  fun repo =>
    if canQuery repo then
      match id with
      | 0 => (Err (ExternalError "gorm" "record not found"), repo)
      | _ =>
          match clusterCandidates repo !! N.to_nat (id - 1) with
          | Some cc => (Ok cc, repo)
          | None => (Err (ExternalError "gorm" "record not found"), repo)
          end
      end
    else (Err (errors_New "Cannot read from database"), repo).

(** Modelled from the spec: [read(id) -> (record, error)]. *)
Definition ReadCluster (id : N) : M models.Cluster.t :=
  fun repo =>
    if canQuery repo then
      match id with
      | 0 => (Err (ExternalError "gorm" "record not found"), repo)
      | _ =>
          match clusters repo !! N.to_nat (id - 1) with
          | Some c => (Ok c, repo)
          | None => (Err (ExternalError "gorm" "record not found"), repo)
          end
      end
    else (Err (errors_New "Cannot read from database"), repo).

End repository.

Notation "x <~ m ;; k" := (repository.mbind m (fun x => k))
  (at level 100, m at next level, right associativity).

(** ** internal/forms/cluster.go *)

Module CreateClusterForm.

Record t : Type := mk {
  Name : string;
  ProjectID : N;
  Server : string;
  GCPIntegrationID : N;
  AWSIntegrationID : N;
  CertificateAuthorityData : string
}.

(** [ToCluster] converts the form to a cluster. *)
Definition ToCluster (ccf : t) : result models.Cluster.t :=
  authMechanism <-
    (if negb (GCPIntegrationID ccf =? 0) then Ok models.GCP
     else if negb (AWSIntegrationID ccf =? 0) then Ok models.AWS
     else Err (errors_New "must include aws or gcp integration id")) ;;
  let cert : list byte := [] in
  cert <-
    (if nonempty_string (CertificateAuthorityData ccf) then
       if regexp.MatchString base64Regexp (CertificateAuthorityData ccf) then
         decoded <- base64.DecodeString (CertificateAuthorityData ccf) ;;
         Ok decoded
       else Ok cert
     else Ok cert) ;;
  Ok {| models.Cluster.ID := 0;
        models.Cluster.AuthMechanism := authMechanism;
        models.Cluster.ProjectID := 0;
        models.Cluster.Name := Name ccf;
        models.Cluster.Server := Server ccf;
        models.Cluster.ClusterLocationOfOrigin := "";
        models.Cluster.TLSServerName := "";
        models.Cluster.InsecureSkipTLSVerify := false;
        models.Cluster.UserLocationOfOrigin := "";
        models.Cluster.UserImpersonate := "";
        models.Cluster.UserImpersonateGroups := "";
        models.Cluster.CertificateAuthorityData := cert;
        models.Cluster.KubeIntegrationID := 0;
        models.Cluster.OIDCIntegrationID := 0;
        models.Cluster.GCPIntegrationID := GCPIntegrationID ccf;
        models.Cluster.AWSIntegrationID := AWSIntegrationID ccf |}.

End CreateClusterForm.

Module UpdateClusterForm.

Record t : Type := mk {
  ID : N;
  Name : string
}.

Definition ToCluster (ucf : t) : repository.M models.Cluster.t :=
  cluster <~ repository.ReadCluster (ID ucf) ;;
  repository.ret (models.Cluster.set_Name (Name ucf) cluster).

End UpdateClusterForm.

Module ResolveClusterForm.

Import repository.

Record t : Type := mk {
  Resolver : option models.ClusterResolverAll.t;
  ClusterCandidateID : N;
  ProjectID : N;
  UserID : N;
  IntegrationID : N;
  ClusterCandidate : option models.ClusterCandidate.t;
  RawConf : option api.Config.t
}.

Definition set_Resolver (v : option models.ClusterResolverAll.t) (rcf : t) : t :=
  let '(mk _ b c d e f g) := rcf in mk v b c d e f g.
Definition set_IntegrationID (v : N) (rcf : t) : t :=
  let '(mk a b c d _ f g) := rcf in mk a b c d v f g.
Definition set_ClusterCandidate (v : option models.ClusterCandidate.t) (rcf : t) : t :=
  let '(mk a b c d e _ g) := rcf in mk a b c d e v g.
Definition set_RawConf (v : option api.Config.t) (rcf : t) : t :=
  let '(mk a b c d e f _) := rcf in mk a b c d e f v.

Definition resolveX509 (rcf : t) (repo : Repository)
    (authInfo : option api.AuthInfo.t) : result N * Repository :=
  (let ki := ints.KubeIntegration.mk 0 ints.KubeX509 (UserID rcf) (ProjectID rcf)
               [] [] [] [] [] [] in
   authInfo <~ lift (deref authInfo) ;;
   let ki :=
     if nonempty_bytes (api.AuthInfo.ClientCertificateData authInfo)
     then ints.KubeIntegration.set_ClientCertificateData
            (api.AuthInfo.ClientCertificateData authInfo) ki
     else ki in
   let ki :=
     if nonempty_bytes (api.AuthInfo.ClientKeyData authInfo)
     then ints.KubeIntegration.set_ClientKeyData
            (api.AuthInfo.ClientKeyData authInfo) ki
     else ki in
   resolver <~ lift (deref (Resolver rcf)) ;;
   ki <~
     (if nonempty_string (models.ClusterResolverAll.ClientCertData resolver) then
        decoded <~ lift (base64.DecodeString
                           (models.ClusterResolverAll.ClientCertData resolver)) ;;
        ret (ints.KubeIntegration.set_ClientCertificateData decoded ki)
      else ret ki) ;;
   ki <~
     (if nonempty_string (models.ClusterResolverAll.ClientKeyData resolver) then
        decoded <~ lift (base64.DecodeString
                           (models.ClusterResolverAll.ClientKeyData resolver)) ;;
        ret (ints.KubeIntegration.set_ClientKeyData decoded ki)
      else ret ki) ;;
   if negb (nonempty_bytes (ints.KubeIntegration.ClientCertificateData ki))
      || negb (nonempty_bytes (ints.KubeIntegration.ClientKeyData ki))
   then fail (errors_New "could not resolve kube integration (x509)")
   else
     ki <~ CreateKubeIntegration ki ;;
     ret (ints.KubeIntegration.ID ki)) repo.

Definition resolveToken (rcf : t) (repo : Repository)
    (authInfo : option api.AuthInfo.t) : result N * Repository :=
  (let ki := ints.KubeIntegration.mk 0 ints.KubeBearer (UserID rcf) (ProjectID rcf)
               [] [] [] [] [] [] in
   authInfo <~ lift (deref authInfo) ;;
   let ki :=
     if nonempty_string (api.AuthInfo.Token authInfo)
     then ints.KubeIntegration.set_Token
            (list_byte_of_string (api.AuthInfo.Token authInfo)) ki
     else ki in
   resolver <~ lift (deref (Resolver rcf)) ;;
   let ki :=
     if nonempty_string (models.ClusterResolverAll.TokenData resolver)
     then ints.KubeIntegration.set_Token
            (list_byte_of_string (models.ClusterResolverAll.TokenData resolver)) ki
     else ki in
   if negb (nonempty_bytes (ints.KubeIntegration.Token ki))
   then fail (errors_New "could not resolve kube integration (token)")
   else
     ki <~ CreateKubeIntegration ki ;;
     ret (ints.KubeIntegration.ID ki)) repo.

Definition resolveBasic (rcf : t) (repo : Repository)
    (authInfo : option api.AuthInfo.t) : result N * Repository :=
  (let ki := ints.KubeIntegration.mk 0 ints.KubeBasic (UserID rcf) (ProjectID rcf)
               [] [] [] [] [] [] in
   authInfo <~ lift (deref authInfo) ;;
   let ki :=
     if nonempty_string (api.AuthInfo.Username authInfo)
     then ints.KubeIntegration.set_Username
            (list_byte_of_string (api.AuthInfo.Username authInfo)) ki
     else ki in
   let ki :=
     if nonempty_string (api.AuthInfo.Password authInfo)
     then ints.KubeIntegration.set_Password
            (list_byte_of_string (api.AuthInfo.Password authInfo)) ki
     else ki in
   if negb (nonempty_bytes (ints.KubeIntegration.Username ki))
      || negb (nonempty_bytes (ints.KubeIntegration.Password ki))
   then fail (errors_New "could not resolve kube integration (basic)")
   else
     ki <~ CreateKubeIntegration ki ;;
     ret (ints.KubeIntegration.ID ki)) repo.

Definition resolveLocal (rcf : t) (repo : Repository)
    (authInfo : option api.AuthInfo.t) : result N * Repository :=
  (cc <~ lift (deref (ClusterCandidate rcf)) ;;
   let ki := ints.KubeIntegration.mk 0 ints.KubeLocal (UserID rcf) (ProjectID rcf)
               [] [] [] [] [] (models.ClusterCandidate.Kubeconfig cc) in
   ki <~ CreateKubeIntegration ki ;;
   ret (ints.KubeIntegration.ID ki)) repo.

Definition resolveOIDC (rcf : t) (repo : Repository)
    (authInfo : option api.AuthInfo.t) : result N * Repository :=
  (let oidc := ints.OIDCIntegration.mk 0 ints.OIDCKube (UserID rcf) (ProjectID rcf)
                 [] [] [] [] [] [] in
   authInfo <~ lift (deref authInfo) ;;
   authProvider <~ lift (deref (api.AuthInfo.AuthProvider authInfo)) ;;
   let config := api.AuthProviderConfig.Config authProvider in
   let oidc :=
     match config !! "idp-issuer-url" with
     | Some url => ints.OIDCIntegration.set_IssuerURL (list_byte_of_string url) oidc
     | None => oidc
     end in
   let oidc :=
     match config !! "client-id" with
     | Some clientID => ints.OIDCIntegration.set_ClientID (list_byte_of_string clientID) oidc
     | None => oidc
     end in
   let oidc :=
     match config !! "client-secret" with
     | Some clientSecret =>
         ints.OIDCIntegration.set_ClientSecret (list_byte_of_string clientSecret) oidc
     | None => oidc
     end in
   let oidc :=
     match config !! "idp-certificate-authority-data" with
     | Some caData =>
         ints.OIDCIntegration.set_CertificateAuthorityData (list_byte_of_string caData) oidc
     | None => oidc
     end in
   let oidc :=
     match config !! "id-token" with
     | Some idToken => ints.OIDCIntegration.set_IDToken (list_byte_of_string idToken) oidc
     | None => oidc
     end in
   let oidc :=
     match config !! "refresh-token" with
     | Some refreshToken =>
         ints.OIDCIntegration.set_RefreshToken (list_byte_of_string refreshToken) oidc
     | None => oidc
     end in
   resolver <~ lift (deref (Resolver rcf)) ;;
   let oidc :=
     if nonempty_string (models.ClusterResolverAll.OIDCIssuerCAData resolver)
     then ints.OIDCIntegration.set_CertificateAuthorityData
            (list_byte_of_string (models.ClusterResolverAll.OIDCIssuerCAData resolver)) oidc
     else oidc in
   oidc <~ CreateOIDCIntegration oidc ;;
   ret (ints.OIDCIntegration.ID oidc)) repo.

Definition resolveGCP (rcf : t) (repo : Repository)
    (authInfo : option api.AuthInfo.t) : result N * Repository :=
  (let gcp := ints.GCPIntegration.mk 0 (UserID rcf) (ProjectID rcf) [] in
   resolver <~ lift (deref (Resolver rcf)) ;;
   let gcp :=
     if nonempty_string (models.ClusterResolverAll.GCPKeyData resolver)
     then ints.GCPIntegration.set_GCPKeyData
            (list_byte_of_string (models.ClusterResolverAll.GCPKeyData resolver)) gcp
     else gcp in
   if negb (nonempty_bytes (ints.GCPIntegration.GCPKeyData gcp))
   then fail (errors_New "could not resolve gcp integration")
   else
     gcp <~ CreateGCPIntegration gcp ;;
     ret (ints.GCPIntegration.ID gcp)) repo.

Definition resolveAWS (rcf : t) (repo : Repository)
    (authInfo : option api.AuthInfo.t) : result N * Repository :=
  (let aws := ints.AWSIntegration.mk 0 (UserID rcf) (ProjectID rcf) [] [] [] in
   resolver <~ lift (deref (Resolver rcf)) ;;
   let aws :=
     if nonempty_string (models.ClusterResolverAll.AWSClusterID resolver)
     then ints.AWSIntegration.set_AWSClusterID
            (list_byte_of_string (models.ClusterResolverAll.AWSClusterID resolver)) aws
     else aws in
   let aws :=
     if nonempty_string (models.ClusterResolverAll.AWSAccessKeyID resolver)
     then ints.AWSIntegration.set_AWSAccessKeyID
            (list_byte_of_string (models.ClusterResolverAll.AWSAccessKeyID resolver)) aws
     else aws in
   let aws :=
     if nonempty_string (models.ClusterResolverAll.AWSSecretAccessKey resolver)
     then ints.AWSIntegration.set_AWSSecretAccessKey
            (list_byte_of_string (models.ClusterResolverAll.AWSSecretAccessKey resolver)) aws
     else aws in
   if negb (nonempty_bytes (ints.AWSIntegration.AWSClusterID aws))
      || negb (nonempty_bytes (ints.AWSIntegration.AWSAccessKeyID aws))
      || negb (nonempty_bytes (ints.AWSIntegration.AWSSecretAccessKey aws))
   then fail (errors_New "could not resolve aws integration")
   else
     aws <~ CreateAWSIntegration aws ;;
     ret (ints.AWSIntegration.ID aws)) repo.

Section methods.

(** [kubernetes.GetRawConfigFromBytes], the kubeconfig parser, and
    [url.Parse] and the [String] method of [url.URL] are collaborators
    from outside the file. *)
Variable GetRawConfigFromBytes : list byte -> result api.Config.t.
Variable url_Parse : string -> result url.URL.
Variable url_String : url.URL -> string.

(** [ResolveIntegration] creates an integration in the DB. The form is
    updated in place, so the call returns the form next to the
    repository. With no matching case the switch leaves [id] at zero
    and [err] at [nil]. *)
Definition ResolveIntegration (rcf : t) (repo : Repository)
    : result unit * t * Repository :=
  match ReadClusterCandidate (ClusterCandidateID rcf) repo with
  | (Err e, repo) => (Err e, rcf, repo)
  | (Panic, repo) => (Panic, rcf, repo)
  | (Ok cc, repo) =>
      let rcf := set_ClusterCandidate (Some cc) rcf in
      match GetRawConfigFromBytes (models.ClusterCandidate.Kubeconfig cc) with
      | Err e => (Err e, rcf, repo)
      | Panic => (Panic, rcf, repo)
      | Ok rawConf =>
          let rcf := set_RawConf (Some rawConf) rcf in
          match api.Config.Contexts rawConf !! api.Config.CurrentContext rawConf with
          | None => (Panic, rcf, repo)
          | Some context =>
              let authInfoName := api.Context.AuthInfo context in
              let authInfo := api.Config.AuthInfos rawConf !! authInfoName in
              let mechanism := models.ClusterCandidate.AuthMechanism cc in
              let '(r, repo) :=
                if String.eqb mechanism models.X509 then resolveX509 rcf repo authInfo
                else if String.eqb mechanism models.Bearer then resolveToken rcf repo authInfo
                else if String.eqb mechanism models.Basic then resolveBasic rcf repo authInfo
                else if String.eqb mechanism models.Local then resolveLocal rcf repo authInfo
                else if String.eqb mechanism models.OIDC then resolveOIDC rcf repo authInfo
                else if String.eqb mechanism models.GCP then resolveGCP rcf repo authInfo
                else if String.eqb mechanism models.AWS then resolveAWS rcf repo authInfo
                else (Ok 0, repo) in
              match r with
              | Err e => (Err e, rcf, repo)
              | Panic => (Panic, rcf, repo)
              | Ok id => (Ok tt, set_IntegrationID id rcf, repo)
              end
          end
      end
  end.

Definition buildCluster (rcf : t) : result models.Cluster.t :=
  rawConf <- deref (RawConf rcf) ;;
  kcContext <- deref (api.Config.Contexts rawConf !! api.Config.CurrentContext rawConf) ;;
  let kcAuthInfoName := api.Context.AuthInfo kcContext in
  let kcAuthInfo := api.Config.AuthInfos rawConf !! kcAuthInfoName in
  let kcClusterName := api.Context.Cluster kcContext in
  let kcCluster := api.Config.Clusters rawConf !! kcClusterName in
  cc <- deref (ClusterCandidate rcf) ;;
  kcCluster <- deref kcCluster ;;
  kcAuthInfo <- deref kcAuthInfo ;;
  let cluster :=
    {| models.Cluster.ID := 0;
       models.Cluster.AuthMechanism := models.ClusterCandidate.AuthMechanism cc;
       models.Cluster.ProjectID := models.ClusterCandidate.ProjectID cc;
       models.Cluster.Name := models.ClusterCandidate.Name cc;
       models.Cluster.Server := models.ClusterCandidate.Server cc;
       models.Cluster.ClusterLocationOfOrigin := api.Cluster.LocationOfOrigin kcCluster;
       models.Cluster.TLSServerName := api.Cluster.TLSServerName kcCluster;
       models.Cluster.InsecureSkipTLSVerify := api.Cluster.InsecureSkipTLSVerify kcCluster;
       models.Cluster.UserLocationOfOrigin := api.AuthInfo.LocationOfOrigin kcAuthInfo;
       models.Cluster.UserImpersonate := api.AuthInfo.Impersonate kcAuthInfo;
       models.Cluster.UserImpersonateGroups := "";
       models.Cluster.CertificateAuthorityData := [];
       models.Cluster.KubeIntegrationID := 0;
       models.Cluster.OIDCIntegrationID := 0;
       models.Cluster.GCPIntegrationID := 0;
       models.Cluster.AWSIntegrationID := 0 |} in
  let cluster :=
    match api.AuthInfo.ImpersonateGroups kcAuthInfo with
    | _ :: _ =>
        models.Cluster.set_UserImpersonateGroups
          (strings.Join (api.AuthInfo.ImpersonateGroups kcAuthInfo) ",") cluster
    | [] => cluster
    end in
  let cluster :=
    if nonempty_bytes (api.Cluster.CertificateAuthorityData kcCluster)
    then models.Cluster.set_CertificateAuthorityData
           (api.Cluster.CertificateAuthorityData kcCluster) cluster
    else cluster in
  resolver <- deref (Resolver rcf) ;;
  cluster <-
    (if nonempty_string (models.ClusterResolverAll.ClusterCAData resolver) then
       decoded <- base64.DecodeString (models.ClusterResolverAll.ClusterCAData resolver) ;;
       Ok (models.Cluster.set_CertificateAuthorityData decoded cluster)
     else Ok cluster) ;;
  cluster <-
    (if nonempty_string (models.ClusterResolverAll.ClusterHostname resolver) then
       serverURL <- url_Parse (models.Cluster.Server cluster) ;;
       let serverURL :=
         if String.eqb (url.Port serverURL) ""
         then url.set_Host (models.ClusterResolverAll.ClusterHostname resolver) serverURL
         else url.set_Host
                (models.ClusterResolverAll.ClusterHostname resolver
                 +:+ ":" +:+ url.Port serverURL) serverURL in
       Ok (models.Cluster.set_Server (url_String serverURL) cluster)
     else Ok cluster) ;;
  let mechanism := models.ClusterCandidate.AuthMechanism cc in
  let cluster :=
    if String.eqb mechanism models.X509 || String.eqb mechanism models.Bearer
       || String.eqb mechanism models.Basic || String.eqb mechanism models.Local
    then models.Cluster.set_KubeIntegrationID (IntegrationID rcf) cluster
    else if String.eqb mechanism models.OIDC
    then models.Cluster.set_OIDCIntegrationID (IntegrationID rcf) cluster
    else if String.eqb mechanism models.GCP
    then models.Cluster.set_GCPIntegrationID (IntegrationID rcf) cluster
    else if String.eqb mechanism models.AWS
    then models.Cluster.set_AWSIntegrationID (IntegrationID rcf) cluster
    else cluster in
  Ok cluster.

(** [ResolveCluster] writes a new cluster to the DB; it must be called
    after [ResolveIntegration]. *)
Definition ResolveCluster (rcf : t) (repo : Repository)
    : result models.Cluster.t * Repository :=
  (cluster <~ lift (buildCluster rcf) ;;
   CreateCluster cluster) repo.

End methods.

End ResolveClusterForm.

(** ** The merge rule in the words of the specification *)


(** The credential-reference slots of a descriptor that are non-zero. *)
Definition nonzeroSlots (c : models.Cluster.t) : list N :=
  List.filter (fun id => negb (id =? 0))
    [models.Cluster.KubeIntegrationID c; models.Cluster.OIDCIntegrationID c;
     models.Cluster.GCPIntegrationID c; models.Cluster.AWSIntegrationID c].

(** The four credential-reference slots of a descriptor. *)
Definition slots (c : models.Cluster.t) : N * N * N * N :=
  (models.Cluster.KubeIntegrationID c, models.Cluster.OIDCIntegrationID c,
   models.Cluster.GCPIntegrationID c, models.Cluster.AWSIntegrationID c).

(** What a resolver leaves behind: on success exactly one new record,
    carrying the returned identifier (the next one of its store) and
    satisfying [P], at the end of its store; otherwise an unchanged
    repository. *)
Definition persistsOnly {R : Type} (store : repository.Repository -> list R)
    (getID : R -> N) (P : R -> Prop)
    (repo : repository.Repository) (out : result N * repository.Repository) : Prop :=
  match out with
  | (Ok id, repo') =>
      exists rec,
        store repo' = store repo ++ [rec] /\ getID rec = id
        /\ id = repository.nextID (store repo) /\ P rec
  | (_, repo') => repo' = repo
  end.

(** Text made of whole quanta: groups of four digits of the alphabet. *)
Inductive Quanta : list ascii -> Prop :=
  | Quanta_nil : Quanta []
  | Quanta_cons (a b c d : ascii) (rest : list ascii) :
      base64Class a = true -> base64Class b = true ->
      base64Class c = true -> base64Class d = true ->
      Quanta rest -> Quanta (a :: b :: c :: d :: rest).

(** A call that leaves the repository as it found it. *)
Definition readOnly {A : Type} (m : repository.M A) : Prop :=
  forall repo, snd (m repo) = repo.

(** ** Sample inputs *)

Module sample.

(** A kubeconfig parser that reads every input as [conf]. *)
Definition parser (conf : api.Config.t) : list byte -> result api.Config.t :=
  fun _ => Ok conf.

(** A reader and a printer for URLs of the shape [scheme://host/path],
    enough to run the builder on concrete server URLs. *)
Fixpoint splitAt (sep : string) (s : string) (fuel : nat) : option (string * string) :=
  match fuel with
  | O => None
  | S k =>
      if String.prefix sep s then Some ("", strings.from (String.length sep) s)
      else
        match s with
        | EmptyString => None
        | String c rest =>
            match splitAt sep rest k with
            | Some (l, r) => Some (String c l, r)
            | None => None
            end
        end
  end.

Definition parseURL (s : string) : result url.URL :=
  match splitAt "://" s (S (String.length s)) with
  | Some (scheme, rest) =>
      match splitAt "/" rest (S (String.length rest)) with
      | Some (host, path) => Ok (url.mkURL scheme "" None host ("/" +:+ path) "" false "" "")
      | None => Ok (url.mkURL scheme "" None rest "" "" false "" "")
      end
  | None => Err (ExternalError "net/url" "missing protocol scheme")
  end.

Definition printURL (u : url.URL) : string :=
  url.Scheme u +:+ "://" +:+ url.Host u +:+ url.Path u.

Definition authInfo : api.AuthInfo.t :=
  {| api.AuthInfo.LocationOfOrigin := "/home/user/.kube/config";
     api.AuthInfo.ClientCertificateData := list_byte_of_string "RAW-CERT";
     api.AuthInfo.ClientKeyData := list_byte_of_string "RAW-KEY";
     api.AuthInfo.Token := "raw-token";
     api.AuthInfo.Impersonate := "";
     api.AuthInfo.ImpersonateGroups := [];
     api.AuthInfo.Username := "admin";
     api.AuthInfo.Password := "hunter2";
     api.AuthInfo.AuthProvider :=
       Some {| api.AuthProviderConfig.Name := "oidc";
               api.AuthProviderConfig.Config :=
                 {[ "idp-issuer-url" := "https://issuer.example.com" ]} |} |}.

Definition cluster : api.Cluster.t :=
  {| api.Cluster.LocationOfOrigin := "/home/user/.kube/config";
     api.Cluster.Server := "https://old.example.com:6443";
     api.Cluster.TLSServerName := "";
     api.Cluster.InsecureSkipTLSVerify := false;
     api.Cluster.CertificateAuthorityData := [] |}.

Definition context : api.Context.t :=
  {| api.Context.LocationOfOrigin := "/home/user/.kube/config";
     api.Context.Cluster := "cluster-a";
     api.Context.AuthInfo := "user-a";
     api.Context.Namespace := "" |}.

(** A complete kubeconfig: one context, its cluster and its user. *)
Definition conf : api.Config.t :=
  {| api.Config.Clusters := {[ "cluster-a" := cluster ]};
     api.Config.AuthInfos := {[ "user-a" := authInfo ]};
     api.Config.Contexts := {[ "context-a" := context ]};
     api.Config.CurrentContext := "context-a" |}.

(** What the parser yields when every section is absent. *)
Definition emptyConf : api.Config.t :=
  {| api.Config.Clusters := ∅;
     api.Config.AuthInfos := ∅;
     api.Config.Contexts := ∅;
     api.Config.CurrentContext := "" |}.

Definition noOverrides : models.ClusterResolverAll.t :=
  models.ClusterResolverAll.mk "" "" "" "" "" "" "" "" "" "".






Definition candidate (mechanism : models.ClusterAuth) (server : string)
    (kubeconfig : list byte) : models.ClusterCandidate.t :=
  {| models.ClusterCandidate.ID := 1;
     models.ClusterCandidate.AuthMechanism := mechanism;
     models.ClusterCandidate.ProjectID := 7;
     models.ClusterCandidate.Name := "cluster-a";
     models.ClusterCandidate.Server := server;
     models.ClusterCandidate.Kubeconfig := kubeconfig |}.

Definition kubeconfig : list byte := list_byte_of_string "apiVersion: v1".

Definition x509Candidate : models.ClusterCandidate.t :=
  candidate models.X509 "https://old.example.com:6443" kubeconfig.

Definition x509CandidateNoPort : models.ClusterCandidate.t :=
  candidate models.X509 "https://old.example.com" kubeconfig.

(** A candidate whose tag is none of the seven mechanisms. *)
Definition kerberosCandidate : models.ClusterCandidate.t :=
  candidate "kerberos" "https://old.example.com:6443" kubeconfig.

(** A candidate whose kubeconfig holds no section at all. *)
Definition emptyCandidate : models.ClusterCandidate.t :=
  candidate models.X509 "https://old.example.com:6443" [].


(** A repository holding the single candidate [cc]. *)
Definition repo (cc : models.ClusterCandidate.t) : repository.Repository :=
  repository.mk true [cc] [] [] [] [] [].

(** A form as the request handler submits it, before resolution. *)
Definition form (resolver : models.ClusterResolverAll.t) : ResolveClusterForm.t :=
  ResolveClusterForm.mk (Some resolver) 1 7 3 0 None None.

(** A form after [ResolveIntegration] stored the candidate, the parsed
    kubeconfig and the integration id. *)
Definition resolvedForm (resolver : models.ClusterResolverAll.t)
    (cc : models.ClusterCandidate.t) (rawConf : api.Config.t) (id : N)
    : ResolveClusterForm.t :=
  ResolveClusterForm.mk (Some resolver) 1 7 3 id (Some cc) (Some rawConf).

End sample.

(** ** internal/templater/helm: reading and writing Helm values *)

Module helm.

Section Helm.

(** [map[string]interface{}], [*chart.Chart], [*templater.TemplateReaderQuery]
    and [*helm.Agent] are kept abstract, and so is the state of the
    cluster that the agent acts on. [utils.CoalesceValues],
    [utils.QueryValues] and the two methods of the agent are
    collaborators from outside the files. *)
Variable Values : Type.
Variable Chart : Type.
Variable Query : Type.
Variable Agent : Type.
Variable World : Type.
Variable Chart_Values : Chart -> Values.
Variable CoalesceValues : Values -> Values -> Values.
Variable QueryValues : Values -> list Query -> result Values.

Record Release : Type := mkRelease {
  Release_Chart : option Chart;
  Release_Config : Values
}.

Record InstallChartConfig : Type := mkInstallChartConfig {
  Conf_Chart : Chart;
  Conf_Name : string;
  Conf_Namespace : string;
  Conf_Values : Values
}.

Variable InstallChart : Agent -> InstallChartConfig -> World -> result Release * World.
Variable UpgradeReleaseByValues :
  Agent -> string -> Values -> World -> result Release * World.

Record ValuesTemplateWriter : Type := mkWriter {
  Writer_Agent : Agent;
  Writer_Chart : option Chart;
  ReleaseName : string;
  Namespace : string
}.

(** [Transform] does nothing. *)
Definition Transform (w : ValuesTemplateWriter) : result unit := Ok tt.

(** [Create] installs a new chart. *)
Definition Create (w : ValuesTemplateWriter) (vals : Values) (world : World)
    : result Values * World :=
  match Writer_Chart w with
  | None => (Err (errors_New "chart must be set"), world)
  | Some chart =>
      let conf := mkInstallChartConfig chart (ReleaseName w) (Namespace w) vals in
      match InstallChart (Writer_Agent w) conf world with
      | (Ok _, world') => (Ok vals, world')
      | (Err e, world') => (Err e, world')
      | (Panic, world') => (Panic, world')
      end
  end.

(** [Update] upgrades a chart. *)
Definition Update (w : ValuesTemplateWriter) (vals : Values) (world : World)
    : result Values * World :=
  if nonempty_string (ReleaseName w)
  then (Err (errors_New "release not set"), world)
  else
    match UpgradeReleaseByValues (Writer_Agent w) (ReleaseName w) vals world with
    | (Ok _, world') => (Ok vals, world')
    | (Err e, world') => (Err e, world')
    | (Panic, world') => (Panic, world')
    end.

Record ValuesTemplateReader : Type := mkReader {
  Queries : list Query;
  Reader_Release : option Release;
  Reader_Chart : option Chart
}.

(** [ValuesFromTarget] reads from the release if set, otherwise from
    the chart. *)
Definition ValuesFromTarget (r : ValuesTemplateReader) : result Values :=
  match Reader_Release r with
  | Some release =>
      chart <- deref (Release_Chart release) ;;
      Ok (CoalesceValues (Chart_Values chart) (Release_Config release))
  | None =>
      match Reader_Chart r with
      | Some chart => Ok (Chart_Values chart)
      | None => Err (errors_New "must set release or chart to read values")
      end
  end.

(** [RegisterQuery] appends to the queries of the reader, which it
    updates in place; the error it returns is always [nil]. *)
Definition RegisterQuery (r : ValuesTemplateReader) (query : Query)
    : ValuesTemplateReader :=
  mkReader (Queries r ++ [query]) (Reader_Release r) (Reader_Chart r).

Definition Read (r : ValuesTemplateReader) : result Values :=
  values <- ValuesFromTarget r ;;
  QueryValues values (Queries r).

(** [ReadStream] is a stub. *)
Definition ReadStream (r : ValuesTemplateReader) : result unit := Ok tt.

End Helm.

Arguments mkRelease {Values Chart} Release_Chart Release_Config.
Arguments Release_Chart {Values Chart} r.
Arguments Release_Config {Values Chart} r.
Arguments mkInstallChartConfig {Values Chart} Conf_Chart Conf_Name Conf_Namespace Conf_Values.
Arguments mkWriter {Chart Agent} Writer_Agent Writer_Chart ReleaseName Namespace.
Arguments Writer_Agent {Chart Agent} v.
Arguments Writer_Chart {Chart Agent} v.
Arguments ReleaseName {Chart Agent} v.
Arguments Namespace {Chart Agent} v.
Arguments Transform {Chart Agent} w.
Arguments Create {Values Chart Agent World} InstallChart w vals world.
Arguments Update {Values Chart Agent World} UpgradeReleaseByValues w vals world.
Arguments mkReader {Values Chart Query} Queries Reader_Release Reader_Chart.
Arguments Queries {Values Chart Query} v.
Arguments Reader_Release {Values Chart Query} v.
Arguments Reader_Chart {Values Chart Query} v.
Arguments ValuesFromTarget {Values Chart Query} Chart_Values CoalesceValues r.
Arguments RegisterQuery {Values Chart Query} r query.
Arguments Read {Values Chart Query} Chart_Values CoalesceValues QueryValues r.
Arguments ReadStream {Values Chart Query} r.

End helm.

(** ** dashboard: the tab region component *)

Module TabRegion.

Record TabOption : Type := mkOption {
  label : string;
  value : string
}.

(** A JavaScript array is an object: [ref] is its identity, compared by
    [!==], and [items] its content. *)
Record Options : Type := mkOptions {
  ref : nat;
  items : list TabOption
}.

(** [defaultTab] is optional: [None] is [undefined]. *)
Record PropsType : Type := mkProps {
  options : Options;
  currentTab : string;
  defaultTab : option string
}.

(** Truthiness of a string that may be [undefined]. *)
Definition truthy (s : option string) : bool :=
  match s with
  | Some s => nonempty_string s
  | None => false
  end.

(** The handlers return the arguments of their calls to
    [props.setCurrentTab], in order. *)
Definition setDefaultTab (props : PropsType) : list string :=
  if negb (truthy (defaultTab props)) then
    match items (options props) with
    | first :: _ => [value first]
    | [] => []
    end
  else [].

Definition componentDidMount (props : PropsType) : list string :=
  setDefaultTab props.

Definition componentDidUpdate (prevProps props : PropsType) : list string :=
  if negb (Nat.eqb (ref (options prevProps)) (ref (options props))) then
    match List.filter (fun x => String.eqb (value x) (currentTab props))
                      (items (options props)) with
    | [] => setDefaultTab props
    | _ :: _ => []
    end
  else [].

(** What [renderContents] shows. *)
Inductive Contents : Type :=
  | Loading
  | Tabs (options : Options) (currentTab : string).

Definition renderContents (props : PropsType) : Contents :=
  if negb (nonempty_string (currentTab props)) then Loading
  else Tabs (options props) (currentTab props).

End TabRegion.

(** ** Further vocabulary for the properties *)

(** A group name without a comma. *)
Fixpoint commaFree (s : string) : bool :=
  match s with
  | EmptyString => true
  | String c rest => negb (Ascii.eqb c ","%char) && commaFree rest
  end.

(** The fields of the form that [ResolveIntegration] is given and does
    not assign. *)
Definition formInputs (rcf : ResolveClusterForm.t)
    : option models.ClusterResolverAll.t * N * N * N :=
  (ResolveClusterForm.Resolver rcf, ResolveClusterForm.ClusterCandidateID rcf,
   ResolveClusterForm.ProjectID rcf, ResolveClusterForm.UserID rcf).

(** The four integration stores of a repository. *)
Definition integrations (repo : repository.Repository)
    : list ints.KubeIntegration.t * list ints.OIDCIntegration.t
      * list ints.GCPIntegration.t * list ints.AWSIntegration.t :=
  (repository.kubeIntegrations repo, repository.oidcIntegrations repo,
   repository.gcpIntegrations repo, repository.awsIntegrations repo).

(** The discriminator of a Kube integration for a candidate mechanism. *)
Definition kubeMechanism (m : models.ClusterAuth) : option ints.KubeIntegrationName :=
  if String.eqb m models.X509 then Some ints.KubeX509
  else if String.eqb m models.Bearer then Some ints.KubeBearer
  else if String.eqb m models.Basic then Some ints.KubeBasic
  else if String.eqb m models.Local then Some ints.KubeLocal
  else None.

(** A Kube integration created for the form [rcf]: appended to its
    store under the next identifier, owned by the form's user and
    project, with discriminator [tag]; nothing else changes. *)
Definition createdKube (tag : ints.KubeIntegrationName) (rcf : ResolveClusterForm.t)
    (repo : repository.Repository) (id : N) (repo' : repository.Repository) : Prop :=
  exists ki,
    repo' = repository.set_kubeIntegrations (repository.kubeIntegrations repo ++ [ki]) repo
    /\ ints.KubeIntegration.ID ki = id
    /\ id = repository.nextID (repository.kubeIntegrations repo)
    /\ ints.KubeIntegration.Mechanism ki = tag
    /\ ints.KubeIntegration.UserID ki = ResolveClusterForm.UserID rcf
    /\ ints.KubeIntegration.ProjectID ki = ResolveClusterForm.ProjectID rcf.

Definition createdOIDC (rcf : ResolveClusterForm.t)
    (repo : repository.Repository) (id : N) (repo' : repository.Repository) : Prop :=
  exists oidc,
    repo' = repository.set_oidcIntegrations (repository.oidcIntegrations repo ++ [oidc]) repo
    /\ ints.OIDCIntegration.ID oidc = id
    /\ id = repository.nextID (repository.oidcIntegrations repo)
    /\ ints.OIDCIntegration.UserID oidc = ResolveClusterForm.UserID rcf
    /\ ints.OIDCIntegration.ProjectID oidc = ResolveClusterForm.ProjectID rcf.

Definition createdGCP (rcf : ResolveClusterForm.t)
    (repo : repository.Repository) (id : N) (repo' : repository.Repository) : Prop :=
  exists gcp,
    repo' = repository.set_gcpIntegrations (repository.gcpIntegrations repo ++ [gcp]) repo
    /\ ints.GCPIntegration.ID gcp = id
    /\ id = repository.nextID (repository.gcpIntegrations repo)
    /\ ints.GCPIntegration.UserID gcp = ResolveClusterForm.UserID rcf
    /\ ints.GCPIntegration.ProjectID gcp = ResolveClusterForm.ProjectID rcf.

Definition createdAWS (rcf : ResolveClusterForm.t)
    (repo : repository.Repository) (id : N) (repo' : repository.Repository) : Prop :=
  exists aws,
    repo' = repository.set_awsIntegrations (repository.awsIntegrations repo ++ [aws]) repo
    /\ ints.AWSIntegration.ID aws = id
    /\ id = repository.nextID (repository.awsIntegrations repo)
    /\ ints.AWSIntegration.UserID aws = ResolveClusterForm.UserID rcf
    /\ ints.AWSIntegration.ProjectID aws = ResolveClusterForm.ProjectID rcf.

(** What no resolver touches: the switch of the repository, the
    candidates and the clusters. *)
Definition outsideIntegrations (repo : repository.Repository)
    : bool * list models.ClusterCandidate.t * list models.Cluster.t :=
  (repository.canQuery repo, repository.clusterCandidates repo, repository.clusters repo).

(** ** More sample inputs *)

Module fixtures.

(** A kubeconfig whose context names a user that has no entry. *)
Definition confNoUser : api.Config.t :=
  {| api.Config.Clusters := {[ "cluster-a" := sample.cluster ]};
     api.Config.AuthInfos := ∅;
     api.Config.Contexts := {[ "context-a" := sample.context ]};
     api.Config.CurrentContext := "context-a" |}.

Definition gcpCandidate : models.ClusterCandidate.t :=
  sample.candidate models.GCP "https://old.example.com:6443" sample.kubeconfig.

Definition gcpOverrides : models.ClusterResolverAll.t :=
  models.ClusterResolverAll.mk "" "" "" "" "" "" "service-account-key" "" "" "".

(** A certificate override made of a single line feed. *)
Definition newlineOverride : models.ClusterResolverAll.t :=
  models.ClusterResolverAll.mk "" "" (String "010"%char "") "" "" "" "" "" "" "".

(** A repository without any candidate. *)
Definition emptyRepo : repository.Repository :=
  repository.mk true [] [] [] [] [] [].

(** A user who impersonates three groups. *)
Definition impersonator : api.AuthInfo.t :=
  api.AuthInfo.mk "" [] [] "" "root" ["a"; "b"; "c"] "" "" None.

(** A complete kubeconfig whose user impersonates. *)
Definition confImpersonator : api.Config.t :=
  {| api.Config.Clusters := {[ "cluster-a" := sample.cluster ]};
     api.Config.AuthInfos := {[ "user-a" := impersonator ]};
     api.Config.Contexts := {[ "context-a" := sample.context ]};
     api.Config.CurrentContext := "context-a" |}.

(** A cluster-CA override in PEM text. *)
Definition pemCAOverride : models.ClusterResolverAll.t :=
  models.ClusterResolverAll.mk "-----BEGIN CERTIFICATE-----" "new.example.com"
    "" "" "" "" "" "" "" "".

(** A candidate whose server is not a URL. *)
Definition oddServerCandidate : models.ClusterCandidate.t :=
  sample.candidate models.X509 "not a url" sample.kubeconfig.

(** A URL reader that rejects everything. *)
Definition rejectURL (s : string) : result url.URL :=
  Err (ExternalError "net/url" "invalid URL").

End fixtures.

(** What a descriptor takes over from the candidate and from the
    originating kubeconfig entries, next to its identifier. *)
Definition provenance (c : models.Cluster.t)
    : N * models.ClusterAuth * N * string * string * string * bool
      * string * string * string :=
  (models.Cluster.ID c, models.Cluster.AuthMechanism c, models.Cluster.ProjectID c,
   models.Cluster.Name c, models.Cluster.ClusterLocationOfOrigin c,
   models.Cluster.TLSServerName c, models.Cluster.InsecureSkipTLSVerify c,
   models.Cluster.UserLocationOfOrigin c, models.Cluster.UserImpersonate c,
   models.Cluster.UserImpersonateGroups c).

(** * Properties *)

Import repository ResolveClusterForm.

Ltac unfold_resolver :=
  unfold resolveX509, resolveToken, resolveBasic, resolveLocal, resolveOIDC,
    resolveGCP, resolveAWS, CreateKubeIntegration, CreateOIDCIntegration,
    CreateGCPIntegration, CreateAWSIntegration, mbind, lift, ret, fail, deref.

Lemma nonempty_string_true (s : string) : nonempty_string s = true <-> s <> "".
Proof.
  unfold nonempty_string. rewrite negb_true_iff. split.
  - intros H ->. discriminate.
  - intros H. destruct (String.eqb_spec s ""); congruence.
Qed.

Lemma nonempty_string_false (s : string) : nonempty_string s = false <-> s = "".
Proof.
  unfold nonempty_string. rewrite negb_false_iff. apply String.eqb_eq.
Qed.

Lemma nonempty_bytes_true (b : list byte) : nonempty_bytes b = true <-> b <> [].
Proof. destruct b; simpl; split; congruence. Qed.

Lemma nonempty_bytes_false (b : list byte) : nonempty_bytes b = false <-> b = [].
Proof. destruct b; simpl; split; congruence. Qed.


(** ** The switch of the dispatcher *)

Lemma eqb_not_known (m : models.ClusterAuth) :
  ~ In m models.knownMechanisms ->
  String.eqb m models.X509 = false /\ String.eqb m models.Bearer = false /\
  String.eqb m models.Basic = false /\ String.eqb m models.Local = false /\
  String.eqb m models.OIDC = false /\ String.eqb m models.GCP = false /\
  String.eqb m models.AWS = false.
Proof.
  intros H. repeat split; apply String.eqb_neq; intros ->; apply H;
    unfold models.knownMechanisms; simpl; tauto.
Qed.

(** C1: a candidate whose mechanism tag is none of the seven known ones,
    and whose kubeconfig parses and holds its current context, makes
    [ResolveIntegration] return success: no resolver runs, nothing is
    persisted and the integration id of the form is left at zero. No
    unsupported-mechanism failure is raised. *)
Theorem C1_unknown_mechanism_returns_success
    (GetRawConfigFromBytes : list byte -> result api.Config.t)
    (rcf : ResolveClusterForm.t) (repo : Repository)
    (cc : models.ClusterCandidate.t) (rawConf : api.Config.t)
    (context : api.Context.t) :
  ReadClusterCandidate (ClusterCandidateID rcf) repo = (Ok cc, repo) ->
  GetRawConfigFromBytes (models.ClusterCandidate.Kubeconfig cc) = Ok rawConf ->
  api.Config.Contexts rawConf !! api.Config.CurrentContext rawConf = Some context ->
  ~ In (models.ClusterCandidate.AuthMechanism cc) models.knownMechanisms ->
  ResolveIntegration GetRawConfigFromBytes rcf repo =
    (Ok tt,
     set_IntegrationID 0 (set_RawConf (Some rawConf) (set_ClusterCandidate (Some cc) rcf)),
     repo).
Proof.
  intros Hread Hparse Hctx Hunknown.
  destruct (eqb_not_known _ Hunknown) as (H1 & H2 & H3 & H4 & H5 & H6 & H7).
  unfold ResolveIntegration.
  rewrite Hread, Hparse, Hctx, H1, H2, H3, H4, H5, H6, H7.
  reflexivity.
Qed.

(** C1, at a candidate tagged "kerberos". *)
Lemma C1_unknown_mechanism_witness :
  ResolveIntegration (sample.parser sample.conf)
    (sample.form sample.noOverrides) (sample.repo sample.kerberosCandidate) =
    (Ok tt,
     sample.resolvedForm sample.noOverrides sample.kerberosCandidate sample.conf 0,
     sample.repo sample.kerberosCandidate).
Proof.
  apply (C1_unknown_mechanism_returns_success (sample.parser sample.conf)
           (sample.form sample.noOverrides) (sample.repo sample.kerberosCandidate)
           sample.kerberosCandidate sample.conf sample.context).
  - reflexivity.
  - reflexivity.
  - vm_compute. reflexivity.
  - vm_compute. intros H. repeat (destruct H as [H | H]; [discriminate H |]). exact H.
Defined.

(** ** Absent kubeconfig sections *)

(** C2: when the contexts of the parsed kubeconfig do not hold the
    current-context name, [ResolveIntegration] and [buildCluster] both
    end in a run-time panic (the context read from the map is nil and
    its [AuthInfo] field is read at once), not in a result or an
    error. *)
Theorem C2_missing_context_panics
    (GetRawConfigFromBytes : list byte -> result api.Config.t)
    (url_Parse : string -> result url.URL) (url_String : url.URL -> string)
    (rcf : ResolveClusterForm.t) (repo : Repository)
    (cc : models.ClusterCandidate.t) (rawConf : api.Config.t) :
  ReadClusterCandidate (ClusterCandidateID rcf) repo = (Ok cc, repo) ->
  GetRawConfigFromBytes (models.ClusterCandidate.Kubeconfig cc) = Ok rawConf ->
  api.Config.Contexts rawConf !! api.Config.CurrentContext rawConf = None ->
  ResolveIntegration GetRawConfigFromBytes rcf repo =
    (Panic, set_RawConf (Some rawConf) (set_ClusterCandidate (Some cc) rcf), repo)
  /\ buildCluster url_Parse url_String
       (set_RawConf (Some rawConf) (set_ClusterCandidate (Some cc) rcf)) = Panic.
Proof.
  intros Hread Hparse Hctx. split.
  - unfold ResolveIntegration. rewrite Hread, Hparse, Hctx. reflexivity.
  - unfold buildCluster. destruct rcf; simpl. rewrite Hctx. reflexivity.
Qed.

(** C2, at a kubeconfig without any section. *)
Lemma C2_missing_context_witness :
  ResolveIntegration (sample.parser sample.emptyConf)
    (sample.form sample.noOverrides) (sample.repo sample.emptyCandidate) =
    (Panic,
     sample.resolvedForm sample.noOverrides sample.emptyCandidate sample.emptyConf 0,
     sample.repo sample.emptyCandidate)
  /\ buildCluster sample.parseURL sample.printURL
       (sample.resolvedForm sample.noOverrides sample.emptyCandidate sample.emptyConf 0)
     = Panic.
Proof.
  apply (C2_missing_context_panics (sample.parser sample.emptyConf)
           sample.parseURL sample.printURL
           (sample.form sample.noOverrides) (sample.repo sample.emptyCandidate)
           sample.emptyCandidate sample.emptyConf).
  - reflexivity.
  - reflexivity.
  - vm_compute. reflexivity.
Defined.

(** The same panic one level down: a context that names a user absent
    from the auth-info map hands a nil pointer to the resolver. *)
Lemma resolveX509_nil_authInfo (rcf : ResolveClusterForm.t) (repo : Repository) :
  resolveX509 rcf repo None = (Panic, repo).
Proof. reflexivity. Qed.

(** ** OIDC and basic auth *)

(** C9: with a non-empty issuer-CA override, the OIDC resolver stores
    the bytes of the override string itself as the certificate-authority
    data of the persisted record; nothing is decoded. *)
Theorem C9_oidc_ca_override_verbatim
    (rcf : ResolveClusterForm.t) (repo : Repository)
    (authInfo : api.AuthInfo.t) (authProvider : api.AuthProviderConfig.t)
    (resolver : models.ClusterResolverAll.t) :
  api.AuthInfo.AuthProvider authInfo = Some authProvider ->
  Resolver rcf = Some resolver ->
  models.ClusterResolverAll.OIDCIssuerCAData resolver <> "" ->
  canQuery repo = true ->
  exists oidc,
    resolveOIDC rcf repo (Some authInfo) =
      (Ok (nextID (oidcIntegrations repo)),
       set_oidcIntegrations (oidcIntegrations repo ++ [oidc]) repo)
    /\ ints.OIDCIntegration.ID oidc = nextID (oidcIntegrations repo)
    /\ ints.OIDCIntegration.CertificateAuthorityData oidc =
         list_byte_of_string (models.ClusterResolverAll.OIDCIssuerCAData resolver).
Proof.
  intros Hap Hres Hca Hq.
  apply nonempty_string_true in Hca.
  unfold_resolver. rewrite Hap, Hres, Hca, Hq.
  repeat match goal with
         | |- context [match ?m !! ?k with _ => _ end] => destruct (m !! k)
         end;
    (eexists; split; [reflexivity | split; reflexivity]).
Qed.

(** C9, at the override "aGVsbG8=": the eight characters are stored,
    not the five bytes they would decode to. *)
Lemma C9_oidc_ca_override_witness :
  exists oidc,
    resolveOIDC (sample.form (models.ClusterResolverAll.mk "" "" "" "" "aGVsbG8=" "" "" "" "" ""))
      (sample.repo sample.x509Candidate) (Some sample.authInfo) =
      (Ok 1, set_oidcIntegrations [oidc] (sample.repo sample.x509Candidate))
    /\ ints.OIDCIntegration.ID oidc = 1
    /\ ints.OIDCIntegration.CertificateAuthorityData oidc = list_byte_of_string "aGVsbG8=".
Proof.
  apply (C9_oidc_ca_override_verbatim
           (sample.form (models.ClusterResolverAll.mk "" "" "" "" "aGVsbG8=" "" "" "" "" ""))
           (sample.repo sample.x509Candidate) sample.authInfo
           {| api.AuthProviderConfig.Name := "oidc";
              api.AuthProviderConfig.Config :=
                {[ "idp-issuer-url" := "https://issuer.example.com" ]} |}
           (models.ClusterResolverAll.mk "" "" "" "" "aGVsbG8=" "" "" "" "" "")).
  - reflexivity.
  - reflexivity.
  - discriminate.
  - reflexivity.
Defined.

(** C10: the basic-auth resolver never reads the overrides: two forms
    that differ only in their resolver values yield the same outcome
    and the same repository. *)
Theorem C10_basic_ignores_overrides
    (rcf : ResolveClusterForm.t)
    (resolver1 resolver2 : option models.ClusterResolverAll.t)
    (repo : Repository) (authInfo : option api.AuthInfo.t) :
  resolveBasic (set_Resolver resolver1 rcf) repo authInfo =
  resolveBasic (set_Resolver resolver2 rcf) repo authInfo.
Proof. destruct rcf. reflexivity. Qed.

(** ** The sniffing of [CreateClusterForm.ToCluster] *)

(** The pattern against the decoder. *)

Import regexp.

Lemma matches_Void (s : list ascii) : matches Void s = false.
Proof. induction s as [| c s IH]; [reflexivity | exact IH]. Qed.

Lemma matches_Eps (s : list ascii) : matches Eps s = true -> s = [].
Proof. destruct s as [| c s]; [reflexivity |]. simpl. rewrite matches_Void. discriminate. Qed.

Lemma matches_Alt (r1 r2 : regex) (s : list ascii) :
  matches (Alt r1 r2) s = matches r1 s || matches r2 s.
Proof. revert r1 r2. induction s as [| c s IH]; intros r1 r2; [reflexivity | apply IH]. Qed.

Lemma matches_Class (p : ascii -> bool) (s : list ascii) :
  matches (Class p) s = true -> exists c, s = [c] /\ p c = true.
Proof.
  destruct s as [| c s]; simpl; [discriminate |].
  destruct (p c) eqn:Hp; [| rewrite matches_Void; discriminate].
  intros H. apply matches_Eps in H. subst s. eauto.
Qed.

Lemma matches_Cat (r1 r2 : regex) (s : list ascii) :
  matches (Cat r1 r2) s = true ->
  exists s1 s2, s = s1 ++ s2 /\ matches r1 s1 = true /\ matches r2 s2 = true.
Proof.
  revert r1 r2. induction s as [| c s IH]; intros r1 r2 H.
  - simpl in H. apply andb_true_iff in H as [H1 H2]. exists [], []. auto.
  - simpl in H. destruct (nullable r1) eqn:Hn.
    + rewrite matches_Alt in H. apply orb_true_iff in H as [H | H].
      * apply IH in H as (s1 & s2 & -> & H1 & H2). exists (c :: s1), s2. auto.
      * exists [], (c :: s). auto.
    + apply IH in H as (s1 & s2 & -> & H1 & H2). exists (c :: s1), s2. auto.
Qed.

Lemma matches_Star (r : regex) (s : list ascii) :
  matches (Star r) s = true ->
  s = [] \/ exists c s1 s2,
              s = (c :: s1) ++ s2 /\ matches r (c :: s1) = true
              /\ matches (Star r) s2 = true.
Proof.
  destruct s as [| c s]; [auto |]. simpl. intros H. right.
  apply matches_Cat in H as (s1 & s2 & -> & H1 & H2). exists c, s1, s2. auto.
Qed.

Lemma matches_quantum (s : list ascii) :
  matches (Rep 4 (Class base64Class)) s = true ->
  exists a b c d, s = [a; b; c; d]
    /\ base64Class a = true /\ base64Class b = true
    /\ base64Class c = true /\ base64Class d = true.
Proof.
  intros H. simpl in H.
  apply matches_Cat in H as (sa & s1 & -> & Ha & H).
  apply matches_Cat in H as (sb & s2 & -> & Hb & H).
  apply matches_Cat in H as (sc & s3 & -> & Hc & H).
  apply matches_Cat in H as (sd & s4 & -> & Hd & H).
  apply matches_Eps in H. subst s4.
  apply matches_Class in Ha as (a & -> & Ha), Hb as (b & -> & Hb),
    Hc as (c & -> & Hc), Hd as (d & -> & Hd).
  exists a, b, c, d. auto.
Qed.

Lemma matches_quanta (s : list ascii) :
  matches (Star (Rep 4 (Class base64Class))) s = true -> Quanta s.
Proof.
  remember (length s) as n eqn:Hn. revert s Hn.
  induction n as [n IH] using lt_wf_ind. intros s Hn H.
  apply matches_Star in H as [-> | (c & s1 & s2 & -> & H1 & H2)]; [constructor |].
  apply matches_quantum in H1 as (a & b & c' & d & Heq & Ha & Hb & Hc & Hd).
  rewrite Heq. simpl. constructor; auto.
  apply (IH (length s2)); [| reflexivity | exact H2].
  subst n. rewrite Heq. simpl. lia.
Qed.

(** The optional last group: three digits and one pad, or two digits
    and two pads. *)
Lemma matches_padded (s : list ascii) :
  matches (Opt (Alt (Cat (Rep 3 (Class base64Class)) (Lit "="%char))
                    (Cat (Rep 2 (Class base64Class))
                         (Cat (Lit "="%char) (Lit "="%char))))) s = true ->
  s = []
  \/ (exists a b c, s = [a; b; c; "="%char]
        /\ base64Class a = true /\ base64Class b = true /\ base64Class c = true)
  \/ (exists a b, s = [a; b; "="%char; "="%char]
        /\ base64Class a = true /\ base64Class b = true).
Proof.
  unfold Opt, Lit. rewrite !matches_Alt. intros H.
  apply orb_true_iff in H as [H | H]; [| left; apply matches_Eps; exact H].
  right. apply orb_true_iff in H as [H | H].
  - left. apply matches_Cat in H as (s3 & sp & -> & H3 & Hp).
    simpl in H3.
    apply matches_Cat in H3 as (sa & s1 & -> & Ha & H3).
    apply matches_Cat in H3 as (sb & s2 & -> & Hb & H3).
    apply matches_Cat in H3 as (sc & s4 & -> & Hc & H3).
    apply matches_Eps in H3. subst s4.
    apply matches_Class in Ha as (a & -> & Ha), Hb as (b & -> & Hb),
      Hc as (c & -> & Hc), Hp as (p & -> & Hp).
    apply Ascii.eqb_eq in Hp. subst p. exists a, b, c. auto.
  - right. apply matches_Cat in H as (s2 & sp & -> & H2 & Hp).
    simpl in H2.
    apply matches_Cat in H2 as (sa & s1 & -> & Ha & H2).
    apply matches_Cat in H2 as (sb & s3 & -> & Hb & H2).
    apply matches_Eps in H2. subst s3.
    apply matches_Cat in Hp as (sp1 & sp2 & -> & Hp1 & Hp2).
    apply matches_Class in Ha as (a & -> & Ha), Hb as (b & -> & Hb),
      Hp1 as (p1 & -> & Hp1), Hp2 as (p2 & -> & Hp2).
    apply Ascii.eqb_eq in Hp1, Hp2. subst p1 p2. exists a, b. auto.
Qed.

(** Every character of the class is a digit of the alphabet. *)
Lemma base64Class_decodeMap (c : ascii) :
  base64Class c = true -> exists v, base64.decodeMap c = Some v.
Proof.
  unfold base64Class, base64.decodeMap. cbv zeta.
  destruct ((65 <=? N_of_ascii c) && (N_of_ascii c <=? 90)); [eauto |].
  destruct ((97 <=? N_of_ascii c) && (N_of_ascii c <=? 122)); [eauto |].
  destruct ((48 <=? N_of_ascii c) && (N_of_ascii c <=? 57)); [eauto |].
  destruct (N_of_ascii c =? 43); [eauto |].
  destruct (N_of_ascii c =? 47); [eauto |].
  discriminate.
Qed.

Lemma decode_quanta (q : list ascii) :
  Quanta q ->
  exists out, forall rest dst,
    base64.decode (q ++ rest) [] dst = base64.decode rest [] (dst ++ out).
Proof.
  induction 1 as [| a b c d q Ha Hb Hc Hd Hq (out & IH)].
  - exists []. intros rest dst. rewrite app_nil_r. reflexivity.
  - apply base64Class_decodeMap in Ha as (va & Ha), Hb as (vb & Hb),
      Hc as (vc & Hc), Hd as (vd & Hd).
    exists (base64.quantum4 va vb vc vd ++ out). intros rest dst.
    simpl. rewrite Ha, Hb, Hc, Hd. simpl. rewrite IH, <- app_assoc. reflexivity.
Qed.

Lemma decode_padded (s : list ascii) (dst : list byte) :
  s = []
  \/ (exists a b c, s = [a; b; c; "="%char]
        /\ base64Class a = true /\ base64Class b = true /\ base64Class c = true)
  \/ (exists a b, s = [a; b; "="%char; "="%char]
        /\ base64Class a = true /\ base64Class b = true) ->
  exists out, base64.decode s [] dst = Ok out.
Proof.
  intros [-> | [(a & b & c & -> & Ha & Hb & Hc) | (a & b & -> & Ha & Hb)]].
  - eexists. reflexivity.
  - apply base64Class_decodeMap in Ha as (va & Ha), Hb as (vb & Hb), Hc as (vc & Hc).
    eexists. simpl. rewrite Ha, Hb, Hc. reflexivity.
  - apply base64Class_decodeMap in Ha as (va & Ha), Hb as (vb & Hb).
    eexists. simpl. rewrite Ha, Hb. reflexivity.
Qed.

(** Text that matches the pattern is accepted by the decoder. *)
Lemma matching_text_decodes (s : string) :
  MatchString base64Regexp s = true ->
  exists decoded, base64.DecodeString s = Ok decoded.
Proof.
  unfold MatchString, base64.DecodeString, base64Regexp. cbv zeta. intros H.
  apply matches_Cat in H as (q & t & -> & Hq & Ht).
  apply matches_quanta in Hq. apply matches_padded in Ht.
  destruct (decode_quanta q Hq) as (out & Hout). rewrite Hout.
  apply decode_padded. exact Ht.
Qed.

(** X3: certificate-authority text that matches the pattern is decoded:
    the conversion succeeds with the decoded bytes. *)
Lemma ToCluster_matching_data (ccf : CreateClusterForm.t) :
  CreateClusterForm.GCPIntegrationID ccf <> 0 \/ CreateClusterForm.AWSIntegrationID ccf <> 0 ->
  CreateClusterForm.CertificateAuthorityData ccf <> "" ->
  regexp.MatchString base64Regexp (CreateClusterForm.CertificateAuthorityData ccf) = true ->
  exists cluster decoded,
    CreateClusterForm.ToCluster ccf = Ok cluster
    /\ base64.DecodeString (CreateClusterForm.CertificateAuthorityData ccf) = Ok decoded
    /\ models.Cluster.CertificateAuthorityData cluster = decoded.
Proof.
  intros Hmech Hne Hmatch. apply nonempty_string_true in Hne.
  destruct (matching_text_decodes _ Hmatch) as (decoded & Hdec).
  unfold CreateClusterForm.ToCluster. rewrite Hne, Hmatch, Hdec.
  destruct Hmech as [H | H]; apply N.eqb_neq in H; rewrite H; simpl.
  - eauto.
  - destruct (CreateClusterForm.GCPIntegrationID ccf =? 0); simpl; eauto.
Qed.

(** C4: certificate-authority text that is not empty and does not match
    the base64 pattern is dropped by [ToCluster]: the conversion
    succeeds and the cluster carries empty certificate-authority data,
    not the bytes of the input. *)
Theorem C4_ToCluster_drops_unmatched_data (ccf : CreateClusterForm.t) :
  CreateClusterForm.GCPIntegrationID ccf <> 0 \/ CreateClusterForm.AWSIntegrationID ccf <> 0 ->
  CreateClusterForm.CertificateAuthorityData ccf <> "" ->
  regexp.MatchString base64Regexp (CreateClusterForm.CertificateAuthorityData ccf) = false ->
  exists cluster,
    CreateClusterForm.ToCluster ccf = Ok cluster
    /\ models.Cluster.CertificateAuthorityData cluster = []
    /\ models.Cluster.CertificateAuthorityData cluster <>
         list_byte_of_string (CreateClusterForm.CertificateAuthorityData ccf).
Proof.
  intros Hmech Hne Hmatch.
  assert (Hbytes : [] <> list_byte_of_string (CreateClusterForm.CertificateAuthorityData ccf)).
  { destruct (CreateClusterForm.CertificateAuthorityData ccf); [congruence | discriminate]. }
  apply nonempty_string_true in Hne.
  unfold CreateClusterForm.ToCluster. rewrite Hne, Hmatch.
  destruct Hmech as [H | H]; apply N.eqb_neq in H; rewrite H; simpl.
  - eexists. split; [reflexivity |]. split; [reflexivity | exact Hbytes].
  - destruct (CreateClusterForm.GCPIntegrationID ccf =? 0); simpl;
      (eexists; split; [reflexivity |]; split; [reflexivity | exact Hbytes]).
Qed.

(** C4, at the first line of a PEM certificate. *)
Lemma C4_ToCluster_drops_unmatched_witness :
  exists cluster,
    CreateClusterForm.ToCluster
      (CreateClusterForm.mk "cluster-a" 7 "https://old.example.com:6443" 1 0
         "-----BEGIN CERTIFICATE-----") = Ok cluster
    /\ models.Cluster.CertificateAuthorityData cluster = []
    /\ models.Cluster.CertificateAuthorityData cluster <>
         list_byte_of_string "-----BEGIN CERTIFICATE-----".
Proof.
  apply (C4_ToCluster_drops_unmatched_data
           (CreateClusterForm.mk "cluster-a" 7 "https://old.example.com:6443" 1 0
              "-----BEGIN CERTIFICATE-----")).
  - left. discriminate.
  - discriminate.
  - vm_compute. reflexivity.
Defined.

(** ** The credential reference of a built descriptor *)

Lemma known_cases (m : models.ClusterAuth) :
  In m models.knownMechanisms ->
  m = models.X509 \/ m = models.Bearer \/ m = models.Basic \/ m = models.Local
  \/ m = models.OIDC \/ m = models.GCP \/ m = models.AWS.
Proof.
  unfold models.knownMechanisms. simpl. intuition.
Qed.

Lemma bind_Ok {A B : Type} (r : result A) (k : A -> result B) (b : B) :
  bind r k = Ok b -> exists a, r = Ok a /\ k a = Ok b.
Proof. destruct r; simpl; intros H; try discriminate. eauto. Qed.

Lemma deref_Ok {A : Type} (p : option A) (a : A) : deref p = Ok a -> p = Some a.
Proof. destruct p; simpl; congruence. Qed.

Lemma slots_set_UserImpersonateGroups v c :
  slots (models.Cluster.set_UserImpersonateGroups v c) = slots c.
Proof. destruct c; reflexivity. Qed.

Lemma slots_set_CertificateAuthorityData v c :
  slots (models.Cluster.set_CertificateAuthorityData v c) = slots c.
Proof. destruct c; reflexivity. Qed.

Lemma slots_set_Server v c : slots (models.Cluster.set_Server v c) = slots c.
Proof. destruct c; reflexivity. Qed.

(** The builder up to its final switch: a successful build is the
    switch applied to a descriptor whose four slots are still zero. *)
Lemma buildCluster_switch
    (url_Parse : string -> result url.URL) (url_String : url.URL -> string)
    (rcf : ResolveClusterForm.t) (cc : models.ClusterCandidate.t)
    (cluster : models.Cluster.t) :
  ClusterCandidate rcf = Some cc ->
  buildCluster url_Parse url_String rcf = Ok cluster ->
  exists c0,
    slots c0 = (0, 0, 0, 0)
    /\ let mechanism := models.ClusterCandidate.AuthMechanism cc in
       cluster =
         if String.eqb mechanism models.X509 || String.eqb mechanism models.Bearer
            || String.eqb mechanism models.Basic || String.eqb mechanism models.Local
         then models.Cluster.set_KubeIntegrationID (IntegrationID rcf) c0
         else if String.eqb mechanism models.OIDC
         then models.Cluster.set_OIDCIntegrationID (IntegrationID rcf) c0
         else if String.eqb mechanism models.GCP
         then models.Cluster.set_GCPIntegrationID (IntegrationID rcf) c0
         else if String.eqb mechanism models.AWS
         then models.Cluster.set_AWSIntegrationID (IntegrationID rcf) c0
         else c0.
Proof.
  intros Hcc Hbuild. unfold buildCluster in Hbuild.
  apply bind_Ok in Hbuild as (rawConf & _ & Hbuild).
  apply bind_Ok in Hbuild as (kcContext & _ & Hbuild).
  apply bind_Ok in Hbuild as (cc' & Hcc' & Hbuild).
  apply deref_Ok in Hcc'. rewrite Hcc in Hcc'. injection Hcc' as <-.
  apply bind_Ok in Hbuild as (kcCluster & _ & Hbuild).
  apply bind_Ok in Hbuild as (kcAuthInfo & _ & Hbuild).
  apply bind_Ok in Hbuild as (resolver & _ & Hbuild).
  apply bind_Ok in Hbuild as (c1 & Hc1 & Hbuild).
  apply bind_Ok in Hbuild as (c2 & Hc2 & Hbuild).
  injection Hbuild as <-.
  exists c2. split; [| reflexivity].
  assert (H1 : slots c1 = (0, 0, 0, 0)).
  { destruct (nonempty_string (models.ClusterResolverAll.ClusterCAData resolver)).
    - apply bind_Ok in Hc1 as (decoded & _ & Hc1). injection Hc1 as <-.
      rewrite slots_set_CertificateAuthorityData.
      destruct (nonempty_bytes _), (api.AuthInfo.ImpersonateGroups kcAuthInfo);
        rewrite ?slots_set_CertificateAuthorityData, ?slots_set_UserImpersonateGroups;
        reflexivity.
    - injection Hc1 as <-.
      destruct (nonempty_bytes _), (api.AuthInfo.ImpersonateGroups kcAuthInfo);
        rewrite ?slots_set_CertificateAuthorityData, ?slots_set_UserImpersonateGroups;
        reflexivity. }
  destruct (nonempty_string (models.ClusterResolverAll.ClusterHostname resolver)).
  - apply bind_Ok in Hc2 as (serverURL & _ & Hc2). injection Hc2 as <-.
    rewrite slots_set_Server. exact H1.
  - injection Hc2 as <-. exact H1.
Qed.




(** ** The hostname override *)







Lemma Server_switch (m : models.ClusterAuth) (id : N) (c : models.Cluster.t) :
  models.Cluster.Server
    (if String.eqb m models.X509 || String.eqb m models.Bearer
        || String.eqb m models.Basic || String.eqb m models.Local
     then models.Cluster.set_KubeIntegrationID id c
     else if String.eqb m models.OIDC
     then models.Cluster.set_OIDCIntegrationID id c
     else if String.eqb m models.GCP
     then models.Cluster.set_GCPIntegrationID id c
     else if String.eqb m models.AWS
     then models.Cluster.set_AWSIntegrationID id c
     else c) = models.Cluster.Server c.
Proof.
  destruct c.
  destruct (_ || _); [reflexivity |].
  destruct (String.eqb m models.OIDC); [reflexivity |].
  destruct (String.eqb m models.GCP); [reflexivity |].
  destruct (String.eqb m models.AWS); reflexivity.
Qed.

Lemma Server_set_CertificateAuthorityData v c :
  models.Cluster.Server (models.Cluster.set_CertificateAuthorityData v c)
  = models.Cluster.Server c.
Proof. destruct c; reflexivity. Qed.





(** The two server URLs of the specification. *)
Example hostname_override_with_port :
  exists cluster,
    buildCluster sample.parseURL sample.printURL
      (sample.resolvedForm
         (models.ClusterResolverAll.mk "" "new.example.com" "" "" "" "" "" "" "" "")
         sample.x509Candidate sample.conf 1) = Ok cluster
    /\ models.Cluster.Server cluster = "https://new.example.com:6443".
Proof. eexists. split; vm_compute; reflexivity. Qed.

Example hostname_override_without_port :
  exists cluster,
    buildCluster sample.parseURL sample.printURL
      (sample.resolvedForm
         (models.ClusterResolverAll.mk "" "new.example.com" "" "" "" "" "" "" "" "")
         sample.x509CandidateNoPort sample.conf 1) = Ok cluster
    /\ models.Cluster.Server cluster = "https://new.example.com".
Proof. eexists. split; vm_compute; reflexivity. Qed.

(** ** What the resolvers persist *)

Lemma readOnly_lift {A : Type} (r : result A) : readOnly (lift r).
Proof. intros repo. reflexivity. Qed.

Lemma readOnly_ret {A : Type} (v : A) : readOnly (ret v).
Proof. intros repo. reflexivity. Qed.

Lemma readOnly_fail {A : Type} (e : error) : readOnly (@fail A e).
Proof. intros repo. reflexivity. Qed.

Lemma readOnly_mbind {A B : Type} (m : M A) (k : A -> M B) :
  readOnly m -> (forall v, readOnly (k v)) -> readOnly (mbind m k).
Proof.
  intros Hm Hk repo. unfold mbind. specialize (Hm repo).
  destruct (m repo) as [[v | e |] repo']; simpl in *; subst; [apply Hk | reflexivity ..].
Qed.

Lemma readOnly_if {A : Type} (c : bool) (m1 m2 : M A) :
  readOnly m1 -> readOnly m2 -> readOnly (if c then m1 else m2).
Proof. destruct c; auto. Qed.

Create HintDb readonly.
#[local] Hint Resolve readOnly_lift readOnly_ret readOnly_fail readOnly_if : readonly.
#[local] Hint Extern 2 (readOnly (mbind _ _)) =>
  apply readOnly_mbind; [| intros ?] : readonly.

Section PersistsOnly.

Context {R : Type} (store : Repository -> list R) (getID : R -> N) (P : R -> Prop).

Lemma persistsOnly_fail (e : error) (repo : Repository) :
  persistsOnly store getID P repo (@fail N e repo).
Proof. reflexivity. Qed.

Lemma persistsOnly_mbind {A : Type} (m : M A) (k : A -> M N) (repo : Repository) :
  readOnly m ->
  (forall v, persistsOnly store getID P repo (k v repo)) ->
  persistsOnly store getID P repo (mbind m k repo).
Proof.
  intros Hm Hk. unfold mbind. specialize (Hm repo).
  destruct (m repo) as [[v | e |] repo']; simpl in *; subst; [apply Hk | reflexivity ..].
Qed.

Lemma persistsOnly_if (c : bool) (m1 m2 : M N) (repo : Repository) :
  (c = true -> persistsOnly store getID P repo (m1 repo)) ->
  (c = false -> persistsOnly store getID P repo (m2 repo)) ->
  persistsOnly store getID P repo ((if c then m1 else m2) repo).
Proof. destruct c; auto. Qed.

End PersistsOnly.

Lemma persistsOnly_CreateKube (P : ints.KubeIntegration.t -> Prop)
    (ki : ints.KubeIntegration.t) (repo : Repository) :
  P (ints.KubeIntegration.set_ID (nextID (kubeIntegrations repo)) ki) ->
  persistsOnly kubeIntegrations ints.KubeIntegration.ID P repo
    ((ki' <~ CreateKubeIntegration ki ;; ret (ints.KubeIntegration.ID ki')) repo).
Proof.
  intros HP. unfold mbind, CreateKubeIntegration, ret, persistsOnly.
  destruct (canQuery repo); [| reflexivity].
  eexists. split; [destruct repo; reflexivity |].
  split; [reflexivity |]. split; [destruct ki; reflexivity | exact HP].
Qed.

Lemma persistsOnly_CreateOIDC (P : ints.OIDCIntegration.t -> Prop)
    (oidc : ints.OIDCIntegration.t) (repo : Repository) :
  P (ints.OIDCIntegration.set_ID (nextID (oidcIntegrations repo)) oidc) ->
  persistsOnly oidcIntegrations ints.OIDCIntegration.ID P repo
    ((oidc' <~ CreateOIDCIntegration oidc ;; ret (ints.OIDCIntegration.ID oidc')) repo).
Proof.
  intros HP. unfold mbind, CreateOIDCIntegration, ret, persistsOnly.
  destruct (canQuery repo); [| reflexivity].
  eexists. split; [destruct repo; reflexivity |].
  split; [reflexivity |]. split; [destruct oidc; reflexivity | exact HP].
Qed.

Lemma persistsOnly_CreateGCP (P : ints.GCPIntegration.t -> Prop)
    (gcp : ints.GCPIntegration.t) (repo : Repository) :
  P (ints.GCPIntegration.set_ID (nextID (gcpIntegrations repo)) gcp) ->
  persistsOnly gcpIntegrations ints.GCPIntegration.ID P repo
    ((gcp' <~ CreateGCPIntegration gcp ;; ret (ints.GCPIntegration.ID gcp')) repo).
Proof.
  intros HP. unfold mbind, CreateGCPIntegration, ret, persistsOnly.
  destruct (canQuery repo); [| reflexivity].
  eexists. split; [destruct repo; reflexivity |].
  split; [reflexivity |]. split; [destruct gcp; reflexivity | exact HP].
Qed.

Lemma persistsOnly_CreateAWS (P : ints.AWSIntegration.t -> Prop)
    (aws : ints.AWSIntegration.t) (repo : Repository) :
  P (ints.AWSIntegration.set_ID (nextID (awsIntegrations repo)) aws) ->
  persistsOnly awsIntegrations ints.AWSIntegration.ID P repo
    ((aws' <~ CreateAWSIntegration aws ;; ret (ints.AWSIntegration.ID aws')) repo).
Proof.
  intros HP. unfold mbind, CreateAWSIntegration, ret, persistsOnly.
  destruct (canQuery repo); [| reflexivity].
  eexists. split; [destruct repo; reflexivity |].
  split; [reflexivity |]. split; [destruct aws; reflexivity | exact HP].
Qed.

(** One step through a resolver: a read-only bind, then the guarded
    creation of the record. *)
Ltac persist_step :=
  lazymatch goal with
  | |- persistsOnly _ _ _ _ (mbind (CreateKubeIntegration _) _ _) =>
      apply persistsOnly_CreateKube
  | |- persistsOnly _ _ _ _ (mbind (CreateOIDCIntegration _) _ _) =>
      apply persistsOnly_CreateOIDC
  | |- persistsOnly _ _ _ _ (mbind (CreateGCPIntegration _) _ _) =>
      apply persistsOnly_CreateGCP
  | |- persistsOnly _ _ _ _ (mbind (CreateAWSIntegration _) _ _) =>
      apply persistsOnly_CreateAWS
  | |- persistsOnly _ _ _ _ (mbind _ _ _) =>
      apply persistsOnly_mbind; [solve [auto 10 with readonly] | intros ?]
  | |- persistsOnly _ _ _ _ ((if _ then fail _ else _) _) =>
      apply persistsOnly_if; intros ?; [apply persistsOnly_fail |]
  end.

(** From the guard of a resolver to the non-emptiness it checked. *)
Ltac checked_fields :=
  repeat match goal with
         | H : _ || _ = false |- _ => apply orb_false_iff in H as [? ?]
         | H : negb _ = false |- _ => apply negb_false_iff in H
         | H : nonempty_bytes _ = true |- _ => apply nonempty_bytes_true in H
         end.

(** The record about to be created satisfies what its guard checked. *)
Ltac close_fields :=
  match goal with
  | |- context [ints.KubeIntegration.set_ID _ ?k] => generalize dependent k
  | |- context [ints.GCPIntegration.set_ID _ ?k] => generalize dependent k
  | |- context [ints.AWSIntegration.set_ID _ ?k] => generalize dependent k
  end;
  intros rec ?; checked_fields; destruct rec; simpl in *; auto.

Lemma resolveX509_persists (rcf : ResolveClusterForm.t) (repo : Repository)
    (authInfo : option api.AuthInfo.t) :
  persistsOnly kubeIntegrations ints.KubeIntegration.ID
    (fun ki => ints.KubeIntegration.ClientCertificateData ki <> []
               /\ ints.KubeIntegration.ClientKeyData ki <> [])
    repo (resolveX509 rcf repo authInfo).
Proof. unfold resolveX509. cbv zeta. repeat persist_step. close_fields. Qed.

Lemma resolveToken_persists (rcf : ResolveClusterForm.t) (repo : Repository)
    (authInfo : option api.AuthInfo.t) :
  persistsOnly kubeIntegrations ints.KubeIntegration.ID
    (fun ki => ints.KubeIntegration.Token ki <> [])
    repo (resolveToken rcf repo authInfo).
Proof. unfold resolveToken. cbv zeta. repeat persist_step. close_fields. Qed.

Lemma resolveBasic_persists (rcf : ResolveClusterForm.t) (repo : Repository)
    (authInfo : option api.AuthInfo.t) :
  persistsOnly kubeIntegrations ints.KubeIntegration.ID
    (fun ki => ints.KubeIntegration.Username ki <> []
               /\ ints.KubeIntegration.Password ki <> [])
    repo (resolveBasic rcf repo authInfo).
Proof. unfold resolveBasic. cbv zeta. repeat persist_step. close_fields. Qed.

Lemma resolveGCP_persists (rcf : ResolveClusterForm.t) (repo : Repository)
    (authInfo : option api.AuthInfo.t) :
  persistsOnly gcpIntegrations ints.GCPIntegration.ID
    (fun gcp => ints.GCPIntegration.GCPKeyData gcp <> [])
    repo (resolveGCP rcf repo authInfo).
Proof. unfold resolveGCP. cbv zeta. repeat persist_step. close_fields. Qed.

Lemma resolveAWS_persists (rcf : ResolveClusterForm.t) (repo : Repository)
    (authInfo : option api.AuthInfo.t) :
  persistsOnly awsIntegrations ints.AWSIntegration.ID
    (fun aws => ints.AWSIntegration.AWSClusterID aws <> []
                /\ ints.AWSIntegration.AWSAccessKeyID aws <> []
                /\ ints.AWSIntegration.AWSSecretAccessKey aws <> [])
    repo (resolveAWS rcf repo authInfo).
Proof. unfold resolveAWS. cbv zeta. repeat persist_step. close_fields. Qed.

Lemma resolveLocal_persists (rcf : ResolveClusterForm.t) (repo : Repository)
    (authInfo : option api.AuthInfo.t) :
  persistsOnly kubeIntegrations ints.KubeIntegration.ID
    (fun ki => exists cc, ClusterCandidate rcf = Some cc
               /\ ints.KubeIntegration.Kubeconfig ki = models.ClusterCandidate.Kubeconfig cc)
    repo (resolveLocal rcf repo authInfo).
Proof.
  unfold resolveLocal, mbind, lift, deref.
  destruct (ClusterCandidate rcf) as [cc |]; [| reflexivity].
  apply persistsOnly_CreateKube. exists cc. split; reflexivity.
Qed.

Lemma resolveOIDC_persists (rcf : ResolveClusterForm.t) (repo : Repository)
    (authInfo : option api.AuthInfo.t) :
  persistsOnly oidcIntegrations ints.OIDCIntegration.ID (fun _ => True)
    repo (resolveOIDC rcf repo authInfo).
Proof. unfold resolveOIDC. cbv zeta. repeat persist_step. exact I. Qed.


(** ** The dispatcher as a whole *)

Lemma nextID_nonzero {A : Type} (store : list A) : nextID store <> 0.
Proof. unfold nextID. lia. Qed.

Lemma persistsOnly_Ok_nonzero {R : Type} (store : Repository -> list R)
    (getID : R -> N) (P : R -> Prop) (repo repo' : Repository) (id : N) :
  persistsOnly store getID P repo (Ok id, repo') -> id <> 0.
Proof. intros (rec & _ & _ & -> & _). apply nextID_nonzero. Qed.

Lemma persistsOnly_failure_keeps {R : Type} (store : Repository -> list R)
    (getID : R -> N) (P : R -> Prop) (repo repo' : Repository) (r : result N) :
  persistsOnly store getID P repo (r, repo') -> is_Ok r = false -> repo' = repo.
Proof. destruct r; simpl; intros H Hr; [discriminate Hr | exact H | exact H]. Qed.

Lemma IntegrationID_set (id : N) (rcf : ResolveClusterForm.t) :
  IntegrationID (set_IntegrationID id rcf) = id.
Proof. destruct rcf; reflexivity. Qed.

Lemma ClusterCandidate_set_IntegrationID (id : N) (rcf : ResolveClusterForm.t) :
  ClusterCandidate (set_IntegrationID id rcf) = ClusterCandidate rcf.
Proof. destruct rcf; reflexivity. Qed.

Lemma ClusterCandidate_set_RawConf (c : option api.Config.t) (rcf : ResolveClusterForm.t) :
  ClusterCandidate (set_RawConf c rcf) = ClusterCandidate rcf.
Proof. destruct rcf; reflexivity. Qed.

Lemma ClusterCandidate_set (cc : option models.ClusterCandidate.t)
    (rcf : ResolveClusterForm.t) :
  ClusterCandidate (set_ClusterCandidate cc rcf) = cc.
Proof. destruct rcf; reflexivity. Qed.

(** A successful [ResolveIntegration] on a candidate with one of the
    seven mechanisms leaves a non-zero integration id on the form: the
    id of the record its resolver created. *)
Lemma ResolveIntegration_known_nonzero_id
    (GetRawConfigFromBytes : list byte -> result api.Config.t)
    (rcf rcf' : ResolveClusterForm.t) (repo repo' : Repository)
    (cc : models.ClusterCandidate.t) :
  ResolveIntegration GetRawConfigFromBytes rcf repo = (Ok tt, rcf', repo') ->
  ClusterCandidate rcf' = Some cc ->
  In (models.ClusterCandidate.AuthMechanism cc) models.knownMechanisms ->
  IntegrationID rcf' <> 0.
Proof.
  intros Hrun Hcc Hknown. unfold ResolveIntegration in Hrun.
  destruct (ReadClusterCandidate (ClusterCandidateID rcf) repo) as [[cc0 | e |] repo0];
    try discriminate Hrun.
  destruct (GetRawConfigFromBytes (models.ClusterCandidate.Kubeconfig cc0))
    as [rawConf | e |]; try discriminate Hrun.
  destruct (api.Config.Contexts rawConf !! api.Config.CurrentContext rawConf)
    as [context |]; try discriminate Hrun.
  cbv zeta in Hrun.
  set (rcf1 := set_RawConf (Some rawConf) (set_ClusterCandidate (Some cc0) rcf)) in *.
  set (authInfo := api.Config.AuthInfos rawConf !! api.Context.AuthInfo context) in *.
  assert (Hcc1 : ClusterCandidate rcf1 = Some cc0).
  { subst rcf1. rewrite ClusterCandidate_set_RawConf. apply ClusterCandidate_set. }
  pose proof (resolveX509_persists rcf1 repo0 authInfo) as HX.
  pose proof (resolveToken_persists rcf1 repo0 authInfo) as HT.
  pose proof (resolveBasic_persists rcf1 repo0 authInfo) as HB.
  pose proof (resolveLocal_persists rcf1 repo0 authInfo) as HL.
  pose proof (resolveOIDC_persists rcf1 repo0 authInfo) as HO.
  pose proof (resolveGCP_persists rcf1 repo0 authInfo) as HG.
  pose proof (resolveAWS_persists rcf1 repo0 authInfo) as HA.
  assert (Hsame : cc0 = cc).
  { repeat match type of Hrun with
           | context [if ?c then _ else _] => destruct c
           end;
      cbv beta iota in Hrun;
      try match type of Hrun with
          | match ?call with _ => _ end = _ =>
              destruct call as [[id | e |] repo1]; try discriminate Hrun
          end;
      injection Hrun as <- <-;
      rewrite ClusterCandidate_set_IntegrationID, Hcc1 in Hcc;
      congruence. }
  subst cc0.
  apply known_cases in Hknown.
  destruct Hknown as [Hm | [Hm | [Hm | [Hm | [Hm | [Hm | Hm]]]]]];
    rewrite Hm in Hrun; simpl in Hrun;
    match type of Hrun with
    | match ?call with _ => _ end = _ =>
        destruct call as [[id | e |] repo1]; try discriminate Hrun;
        injection Hrun as <- <-; rewrite IntegrationID_set;
        eauto using persistsOnly_Ok_nonzero
    end.
Qed.

Lemma ReadClusterCandidate_readOnly (id : N) : readOnly (ReadClusterCandidate id).
Proof.
  intros repo. unfold ReadClusterCandidate.
  destruct (canQuery repo); [| reflexivity].
  destruct id; [reflexivity |].
  destruct (clusterCandidates repo !! _); reflexivity.
Qed.

(** X5: a [ResolveIntegration] that does not succeed has persisted
    nothing: the repository is the one it was given. *)
Lemma ResolveIntegration_failure_keeps_repo
    (GetRawConfigFromBytes : list byte -> result api.Config.t)
    (rcf rcf' : ResolveClusterForm.t) (repo repo' : Repository) (r : result unit) :
  ResolveIntegration GetRawConfigFromBytes rcf repo = (r, rcf', repo') ->
  is_Ok r = false ->
  repo' = repo.
Proof.
  intros Hrun Hr. unfold ResolveIntegration in Hrun.
  pose proof (ReadClusterCandidate_readOnly (ClusterCandidateID rcf) repo) as Hread.
  destruct (ReadClusterCandidate (ClusterCandidateID rcf) repo) as [[cc0 | e |] repo0];
    simpl in Hread; subst repo0; try (injection Hrun as _ _ <-; reflexivity).
  destruct (GetRawConfigFromBytes (models.ClusterCandidate.Kubeconfig cc0))
    as [rawConf | e |]; try (injection Hrun as _ _ <-; reflexivity).
  destruct (api.Config.Contexts rawConf !! api.Config.CurrentContext rawConf)
    as [context |]; try (injection Hrun as _ _ <-; reflexivity).
  cbv zeta in Hrun.
  set (rcf1 := set_RawConf (Some rawConf) (set_ClusterCandidate (Some cc0) rcf)) in *.
  set (authInfo := api.Config.AuthInfos rawConf !! api.Context.AuthInfo context) in *.
  pose proof (resolveX509_persists rcf1 repo authInfo) as HX.
  pose proof (resolveToken_persists rcf1 repo authInfo) as HT.
  pose proof (resolveBasic_persists rcf1 repo authInfo) as HB.
  pose proof (resolveLocal_persists rcf1 repo authInfo) as HL.
  pose proof (resolveOIDC_persists rcf1 repo authInfo) as HO.
  pose proof (resolveGCP_persists rcf1 repo authInfo) as HG.
  pose proof (resolveAWS_persists rcf1 repo authInfo) as HA.
  repeat match type of Hrun with
         | context [if ?c then _ else _] => destruct c
         end;
    cbv beta iota in Hrun;
    match type of Hrun with
    | match ?call with _ => _ end = _ =>
        destruct call as [[id | e |] repo1];
        injection Hrun as <- _ <-; try discriminate Hr;
        eauto using persistsOnly_failure_keeps
    | _ => injection Hrun as <- _ <-; discriminate Hr
    end.
Qed.


(** ** Raw source against override *)












(** * Further properties of the forms *)

(** ** Creating a cluster by hand *)

(** X1: [ToCluster] fails exactly when the form names no integration:
    with both ids zero it returns the error "must include aws or gcp
    integration id", and otherwise it succeeds whatever the
    certificate-authority text is, since text that the pattern lets
    through is always accepted by the decoder. *)
Theorem ToCluster_fails_only_without_integration (ccf : CreateClusterForm.t) :
  if (CreateClusterForm.GCPIntegrationID ccf =? 0)
     && (CreateClusterForm.AWSIntegrationID ccf =? 0)
  then CreateClusterForm.ToCluster ccf =
         Err (errors_New "must include aws or gcp integration id")
  else is_Ok (CreateClusterForm.ToCluster ccf) = true.
Proof.
  unfold CreateClusterForm.ToCluster.
  destruct (CreateClusterForm.GCPIntegrationID ccf =? 0) eqn:Hg;
    destruct (CreateClusterForm.AWSIntegrationID ccf =? 0) eqn:Ha;
    simpl; try reflexivity;
    destruct (nonempty_string (CreateClusterForm.CertificateAuthorityData ccf));
    try reflexivity;
    destruct (MatchString base64Regexp (CreateClusterForm.CertificateAuthorityData ccf))
      eqn:Hm; try reflexivity;
    destruct (matching_text_decodes _ Hm) as (decoded & ->); reflexivity.
Qed.

(** X2: what a successful [ToCluster] copies. The mechanism is GCP as
    soon as the GCP id is non-zero, AWS otherwise; both integration ids
    are copied as they are (two non-zero slots when the form names
    both); name and server are copied; the project id of the form is
    not, and the cluster's project id stays zero. *)
Theorem ToCluster_copies (ccf : CreateClusterForm.t) (cluster : models.Cluster.t) :
  CreateClusterForm.ToCluster ccf = Ok cluster ->
  models.Cluster.AuthMechanism cluster =
    (if CreateClusterForm.GCPIntegrationID ccf =? 0 then models.AWS else models.GCP)
  /\ slots cluster =
       (0, 0, CreateClusterForm.GCPIntegrationID ccf,
        CreateClusterForm.AWSIntegrationID ccf)
  /\ models.Cluster.Name cluster = CreateClusterForm.Name ccf
  /\ models.Cluster.Server cluster = CreateClusterForm.Server ccf
  /\ models.Cluster.ProjectID cluster = 0
  /\ models.Cluster.ID cluster = 0.
Proof.
  unfold CreateClusterForm.ToCluster. intros H.
  apply bind_Ok in H as (m & Hm & H).
  apply bind_Ok in H as (cert & _ & H).
  injection H as <-. simpl. unfold slots. simpl.
  destruct (CreateClusterForm.GCPIntegrationID ccf =? 0); simpl in Hm.
  - destruct (CreateClusterForm.AWSIntegrationID ccf =? 0); simpl in Hm;
      [discriminate Hm | injection Hm as <-; auto 10].
  - injection Hm as <-. auto 10.
Qed.

(** X2, on a form that names both integrations. *)
Lemma ToCluster_copies_witness :
  exists cluster,
    CreateClusterForm.ToCluster
      (CreateClusterForm.mk "cluster-a" 7 "https://old.example.com:6443" 4 5 "") = Ok cluster
    /\ models.Cluster.AuthMechanism cluster = models.GCP
    /\ nonzeroSlots cluster = [4; 5]
    /\ models.Cluster.ProjectID cluster = 0.
Proof.
  assert (E : exists cluster,
             CreateClusterForm.ToCluster
               (CreateClusterForm.mk "cluster-a" 7 "https://old.example.com:6443" 4 5 "")
             = Ok cluster) by (eexists; reflexivity).
  destruct E as [cluster E]. exists cluster. split; [exact E |].
  destruct (ToCluster_copies _ cluster E) as (Hm & Hs & _ & _ & Hp & _).
  split; [exact Hm |]. split; [| exact Hp].
  unfold nonzeroSlots. unfold slots in Hs. injection Hs as -> -> -> ->. reflexivity.
Defined.

(** X3, on the text "aGVsbG8=". *)
Lemma ToCluster_matching_data_witness :
  exists cluster decoded,
    CreateClusterForm.ToCluster
      (CreateClusterForm.mk "cluster-a" 7 "https://old.example.com:6443" 0 5 "aGVsbG8=")
    = Ok cluster
    /\ base64.DecodeString "aGVsbG8=" = Ok decoded
    /\ models.Cluster.CertificateAuthorityData cluster = decoded.
Proof.
  apply (ToCluster_matching_data
           (CreateClusterForm.mk "cluster-a" 7 "https://old.example.com:6443" 0 5 "aGVsbG8=")).
  - right. discriminate.
  - discriminate.
  - vm_compute. reflexivity.
Defined.

(** ** The record a resolver creates *)

Lemma mbind_Ok {A B : Type} (m : M A) (k : A -> M B) (repo repo' : Repository) (b : B) :
  mbind m k repo = (Ok b, repo') ->
  exists a repo1, m repo = (Ok a, repo1) /\ k a repo1 = (Ok b, repo').
Proof.
  unfold mbind. destruct (m repo) as [[a | e |] repo1]; intros H; try discriminate H.
  eauto.
Qed.

Lemma lift_Ok {A : Type} (r : result A) (repo repo1 : Repository) (a : A) :
  lift r repo = (Ok a, repo1) -> r = Ok a /\ repo1 = repo.
Proof. unfold lift. intros H. injection H as -> ->. auto. Qed.

Lemma ret_Ok {A : Type} (v a : A) (repo repo1 : Repository) :
  ret v repo = (Ok a, repo1) -> a = v /\ repo1 = repo.
Proof. unfold ret. intros H. injection H as -> ->. auto. Qed.

Lemma CreateKubeIntegration_Ok ki repo ki' repo' :
  CreateKubeIntegration ki repo = (Ok ki', repo') ->
  ki' = ints.KubeIntegration.set_ID (nextID (kubeIntegrations repo)) ki
  /\ repo' = set_kubeIntegrations (kubeIntegrations repo ++ [ki']) repo.
Proof.
  unfold CreateKubeIntegration. destruct (canQuery repo); intros H; [| discriminate H].
  injection H as <- <-. auto.
Qed.

Lemma CreateOIDCIntegration_Ok oidc repo oidc' repo' :
  CreateOIDCIntegration oidc repo = (Ok oidc', repo') ->
  oidc' = ints.OIDCIntegration.set_ID (nextID (oidcIntegrations repo)) oidc
  /\ repo' = set_oidcIntegrations (oidcIntegrations repo ++ [oidc']) repo.
Proof.
  unfold CreateOIDCIntegration. destruct (canQuery repo); intros H; [| discriminate H].
  injection H as <- <-. auto.
Qed.

Lemma CreateGCPIntegration_Ok gcp repo gcp' repo' :
  CreateGCPIntegration gcp repo = (Ok gcp', repo') ->
  gcp' = ints.GCPIntegration.set_ID (nextID (gcpIntegrations repo)) gcp
  /\ repo' = set_gcpIntegrations (gcpIntegrations repo ++ [gcp']) repo.
Proof.
  unfold CreateGCPIntegration. destruct (canQuery repo); intros H; [| discriminate H].
  injection H as <- <-. auto.
Qed.

Lemma CreateAWSIntegration_Ok aws repo aws' repo' :
  CreateAWSIntegration aws repo = (Ok aws', repo') ->
  aws' = ints.AWSIntegration.set_ID (nextID (awsIntegrations repo)) aws
  /\ repo' = set_awsIntegrations (awsIntegrations repo ++ [aws']) repo.
Proof.
  unfold CreateAWSIntegration. destruct (canQuery repo); intros H; [| discriminate H].
  injection H as <- <-. auto.
Qed.

(** One step backwards through a successful run of a resolver. *)
Ltac run_back :=
  match goal with
  | H : mbind _ _ _ = (Ok _, _) |- _ =>
      apply mbind_Ok in H as (? & ? & ? & ?); cbv beta in *
  | H : lift _ _ = (Ok _, _) |- _ => apply lift_Ok in H as [? ?]; subst
  | H : ret _ _ = (Ok _, _) |- _ => apply ret_Ok in H as [? ?]; subst
  | H : fail _ _ = (Ok _, _) |- _ => discriminate H
  | H : (if ?c then _ else _) _ = (Ok _, _) |- _ => destruct c eqn:?
  | H : CreateKubeIntegration _ _ = (Ok _, _) |- _ =>
      apply CreateKubeIntegration_Ok in H as [? ?]; subst
  | H : CreateOIDCIntegration _ _ = (Ok _, _) |- _ =>
      apply CreateOIDCIntegration_Ok in H as [? ?]; subst
  | H : CreateGCPIntegration _ _ = (Ok _, _) |- _ =>
      apply CreateGCPIntegration_Ok in H as [? ?]; subst
  | H : CreateAWSIntegration _ _ = (Ok _, _) |- _ =>
      apply CreateAWSIntegration_Ok in H as [? ?]; subst
  end.

(** The record is the one at the end of the store; its owner and tag
    are those of the literal the resolver started from. *)
Ltac created_record :=
  eexists; split; [reflexivity |];
  repeat match goal with
         | |- context [if ?c then _ else _] => destruct c
         | |- context [match ?m !! ?k with _ => _ end] => destruct (m !! k)
         end;
  simpl; auto 10.

Lemma resolveX509_creates rcf repo authInfo id repo' :
  resolveX509 rcf repo authInfo = (Ok id, repo') ->
  createdKube ints.KubeX509 rcf repo id repo'.
Proof.
  unfold resolveX509. cbv zeta. intros H. repeat run_back; created_record.
Qed.

Lemma resolveToken_creates rcf repo authInfo id repo' :
  resolveToken rcf repo authInfo = (Ok id, repo') ->
  createdKube ints.KubeBearer rcf repo id repo'.
Proof.
  unfold resolveToken. cbv zeta. intros H. repeat run_back; created_record.
Qed.

Lemma resolveBasic_creates rcf repo authInfo id repo' :
  resolveBasic rcf repo authInfo = (Ok id, repo') ->
  createdKube ints.KubeBasic rcf repo id repo'.
Proof.
  unfold resolveBasic. cbv zeta. intros H. repeat run_back; created_record.
Qed.

Lemma resolveLocal_creates rcf repo authInfo id repo' :
  resolveLocal rcf repo authInfo = (Ok id, repo') ->
  createdKube ints.KubeLocal rcf repo id repo'.
Proof.
  unfold resolveLocal. cbv zeta. intros H. repeat run_back; created_record.
Qed.

Lemma resolveOIDC_creates rcf repo authInfo id repo' :
  resolveOIDC rcf repo authInfo = (Ok id, repo') ->
  createdOIDC rcf repo id repo'.
Proof.
  unfold resolveOIDC. cbv zeta. intros H. repeat run_back; created_record.
Qed.

Lemma resolveGCP_creates rcf repo authInfo id repo' :
  resolveGCP rcf repo authInfo = (Ok id, repo') ->
  createdGCP rcf repo id repo'.
Proof.
  unfold resolveGCP. cbv zeta. intros H. repeat run_back; created_record.
Qed.

Lemma resolveAWS_creates rcf repo authInfo id repo' :
  resolveAWS rcf repo authInfo = (Ok id, repo') ->
  createdAWS rcf repo id repo'.
Proof.
  unfold resolveAWS. cbv zeta. intros H. repeat run_back; created_record.
Qed.

(** ** The dispatcher: what it changes and what it leaves alone *)

Ltac outside_by persists creates :=
  intros rcf repo authInfo;
  pose proof (persists rcf repo authInfo) as P;
  pose proof (creates rcf repo authInfo) as C;
  match goal with
  | |- context [snd ?call] => destruct call as [[id | e |] repo1]
  end;
  simpl in *;
  [destruct (C _ _ eq_refl) as (rec & -> & _); destruct repo; reflexivity
  | subst; reflexivity ..].

Lemma resolveX509_outside : forall rcf repo authInfo,
  outsideIntegrations (snd (resolveX509 rcf repo authInfo)) = outsideIntegrations repo.
Proof. outside_by resolveX509_persists resolveX509_creates. Qed.

Lemma resolveToken_outside : forall rcf repo authInfo,
  outsideIntegrations (snd (resolveToken rcf repo authInfo)) = outsideIntegrations repo.
Proof. outside_by resolveToken_persists resolveToken_creates. Qed.

Lemma resolveBasic_outside : forall rcf repo authInfo,
  outsideIntegrations (snd (resolveBasic rcf repo authInfo)) = outsideIntegrations repo.
Proof. outside_by resolveBasic_persists resolveBasic_creates. Qed.

Lemma resolveLocal_outside : forall rcf repo authInfo,
  outsideIntegrations (snd (resolveLocal rcf repo authInfo)) = outsideIntegrations repo.
Proof. outside_by resolveLocal_persists resolveLocal_creates. Qed.

Lemma resolveOIDC_outside : forall rcf repo authInfo,
  outsideIntegrations (snd (resolveOIDC rcf repo authInfo)) = outsideIntegrations repo.
Proof. outside_by resolveOIDC_persists resolveOIDC_creates. Qed.

Lemma resolveGCP_outside : forall rcf repo authInfo,
  outsideIntegrations (snd (resolveGCP rcf repo authInfo)) = outsideIntegrations repo.
Proof. outside_by resolveGCP_persists resolveGCP_creates. Qed.

Lemma resolveAWS_outside : forall rcf repo authInfo,
  outsideIntegrations (snd (resolveAWS rcf repo authInfo)) = outsideIntegrations repo.
Proof. outside_by resolveAWS_persists resolveAWS_creates. Qed.

Lemma formInputs_set_ClusterCandidate cc rcf :
  formInputs (set_ClusterCandidate cc rcf) = formInputs rcf.
Proof. destruct rcf; reflexivity. Qed.

Lemma formInputs_set_RawConf c rcf : formInputs (set_RawConf c rcf) = formInputs rcf.
Proof. destruct rcf; reflexivity. Qed.

Lemma formInputs_set_IntegrationID id rcf :
  formInputs (set_IntegrationID id rcf) = formInputs rcf.
Proof. destruct rcf; reflexivity. Qed.

Lemma IntegrationID_set_ClusterCandidate cc rcf :
  IntegrationID (set_ClusterCandidate cc rcf) = IntegrationID rcf.
Proof. destruct rcf; reflexivity. Qed.

Lemma IntegrationID_set_RawConf c rcf :
  IntegrationID (set_RawConf c rcf) = IntegrationID rcf.
Proof. destruct rcf; reflexivity. Qed.

Lemma ResolveIntegration_keeps
    (GetRawConfigFromBytes : list byte -> result api.Config.t)
    (rcf : ResolveClusterForm.t) (repo : Repository) :
  let '(r, rcf', repo') := ResolveIntegration GetRawConfigFromBytes rcf repo in
  formInputs rcf' = formInputs rcf
  /\ outsideIntegrations repo' = outsideIntegrations repo
  /\ (if is_Ok r then True else IntegrationID rcf' = IntegrationID rcf).
Proof.
  unfold ResolveIntegration.
  pose proof (ReadClusterCandidate_readOnly (ClusterCandidateID rcf) repo) as Hread.
  destruct (ReadClusterCandidate (ClusterCandidateID rcf) repo) as [[cc0 | e |] repo0];
    simpl in Hread; subst repo0; [| simpl; auto ..].
  destruct (GetRawConfigFromBytes (models.ClusterCandidate.Kubeconfig cc0))
    as [rawConf | e |];
    [| simpl; rewrite formInputs_set_ClusterCandidate, IntegrationID_set_ClusterCandidate;
       auto ..].
  destruct (api.Config.Contexts rawConf !! api.Config.CurrentContext rawConf)
    as [context |];
    [| simpl; rewrite formInputs_set_RawConf, formInputs_set_ClusterCandidate,
         IntegrationID_set_RawConf, IntegrationID_set_ClusterCandidate; auto].
  cbv zeta.
  set (rcf1 := set_RawConf (Some rawConf) (set_ClusterCandidate (Some cc0) rcf)).
  set (authInfo := api.Config.AuthInfos rawConf !! api.Context.AuthInfo context).
  assert (Hin : formInputs rcf1 = formInputs rcf)
    by (subst rcf1; rewrite formInputs_set_RawConf; apply formInputs_set_ClusterCandidate).
  assert (Hid : IntegrationID rcf1 = IntegrationID rcf)
    by (subst rcf1; rewrite IntegrationID_set_RawConf;
        apply IntegrationID_set_ClusterCandidate).
  pose proof (resolveX509_outside rcf1 repo authInfo) as OX.
  pose proof (resolveToken_outside rcf1 repo authInfo) as OT.
  pose proof (resolveBasic_outside rcf1 repo authInfo) as OB.
  pose proof (resolveLocal_outside rcf1 repo authInfo) as OL.
  pose proof (resolveOIDC_outside rcf1 repo authInfo) as OO.
  pose proof (resolveGCP_outside rcf1 repo authInfo) as OG.
  pose proof (resolveAWS_outside rcf1 repo authInfo) as OA.
  repeat match goal with
         | |- context [if String.eqb ?a ?b then _ else _] => destruct (String.eqb a b)
         end;
    try match goal with
        | |- context [match ?call with _ => _ end] =>
            match call with
            | _ rcf1 repo authInfo => destruct call as [[id | e |] repo1]
            end
        end;
    simpl in *; rewrite ?formInputs_set_IntegrationID; auto.
Qed.

(** X4: whatever its outcome, [ResolveIntegration] leaves the resolver
    values and the three ids given on the form as they were, and in the
    repository leaves the candidates, the clusters and the switch
    alone; unless it succeeds it also leaves the integration id of the
    form alone. *)
Theorem ResolveIntegration_frame
    (GetRawConfigFromBytes : list byte -> result api.Config.t)
    (rcf : ResolveClusterForm.t) (repo : Repository) :
  let '(r, rcf', repo') := ResolveIntegration GetRawConfigFromBytes rcf repo in
  formInputs rcf' = formInputs rcf
  /\ outsideIntegrations repo' = outsideIntegrations repo
  /\ (if is_Ok r then True else IntegrationID rcf' = IntegrationID rcf).
Proof. apply ResolveIntegration_keeps. Qed.

(** X5, for a candidate id that the repository does not know. *)
Lemma ResolveIntegration_failure_keeps_repo_witness :
  ResolveIntegration (sample.parser sample.conf) (sample.form sample.noOverrides)
    fixtures.emptyRepo =
    (Err (ExternalError "gorm" "record not found"), sample.form sample.noOverrides,
     fixtures.emptyRepo)
  /\ fixtures.emptyRepo = fixtures.emptyRepo.
Proof.
  split; [reflexivity |].
  apply (ResolveIntegration_failure_keeps_repo (sample.parser sample.conf)
           (sample.form sample.noOverrides) (sample.form sample.noOverrides)
           fixtures.emptyRepo fixtures.emptyRepo
           (Err (ExternalError "gorm" "record not found"))).
  - reflexivity.
  - reflexivity.
Defined.

(** The resolver that the switch selected returned successfully. *)
Ltac dispatch_case Hrun creates :=
  cbv beta iota in Hrun;
  match type of Hrun with
  | match ?call with _ => _ end = _ =>
      let Hcall := fresh "Hcall" in
      destruct call as [[id | e |] repo1] eqn:Hcall; try discriminate Hrun;
      injection Hrun as <- <-; apply creates in Hcall
  end.

(** X6: a successful [ResolveIntegration] has created exactly one
    record, in the store of the candidate's mechanism: a Kube
    integration tagged X509, bearer, basic or local, or an OIDC, GCP or
    AWS integration. The record is owned by the user and project of
    the form, its identifier is the integration id left on the form,
    and nothing else in the repository has changed. For a tag outside
    the seven mechanisms nothing is created and the id is zero. *)
Theorem ResolveIntegration_creates_owned_record
    (GetRawConfigFromBytes : list byte -> result api.Config.t)
    (rcf rcf' : ResolveClusterForm.t) (repo repo' : Repository)
    (cc : models.ClusterCandidate.t) :
  ResolveIntegration GetRawConfigFromBytes rcf repo = (Ok tt, rcf', repo') ->
  ClusterCandidate rcf' = Some cc ->
  let m := models.ClusterCandidate.AuthMechanism cc in
  let id := IntegrationID rcf' in
  (forall tag, kubeMechanism m = Some tag -> createdKube tag rcf repo id repo')
  /\ (m = models.OIDC -> createdOIDC rcf repo id repo')
  /\ (m = models.GCP -> createdGCP rcf repo id repo')
  /\ (m = models.AWS -> createdAWS rcf repo id repo')
  /\ (~ In m models.knownMechanisms -> id = 0 /\ repo' = repo).
Proof.
  intros Hrun Hcc m id. subst m id. unfold ResolveIntegration in Hrun.
  pose proof (ReadClusterCandidate_readOnly (ClusterCandidateID rcf) repo) as Hread.
  destruct (ReadClusterCandidate (ClusterCandidateID rcf) repo) as [[cc0 | e |] repo0];
    simpl in Hread; subst repo0; try discriminate Hrun.
  destruct (GetRawConfigFromBytes (models.ClusterCandidate.Kubeconfig cc0))
    as [rawConf | e |]; try discriminate Hrun.
  destruct (api.Config.Contexts rawConf !! api.Config.CurrentContext rawConf)
    as [context |]; try discriminate Hrun.
  cbv zeta in Hrun.
  set (rcf1 := set_RawConf (Some rawConf) (set_ClusterCandidate (Some cc0) rcf)) in *.
  set (authInfo := api.Config.AuthInfos rawConf !! api.Context.AuthInfo context) in *.
  assert (Hcc1 : ClusterCandidate rcf1 = Some cc0).
  { subst rcf1. rewrite ClusterCandidate_set_RawConf. apply ClusterCandidate_set. }
  assert (Hown : UserID rcf1 = UserID rcf /\ ProjectID rcf1 = ProjectID rcf)
    by (subst rcf1; destruct rcf; auto).
  destruct Hown as [Hu Hp].
  unfold createdKube, createdOIDC, createdGCP, createdAWS, kubeMechanism.
  rewrite <- Hu, <- Hp.
  fold (createdOIDC rcf1 repo (IntegrationID rcf') repo').
  fold (createdGCP rcf1 repo (IntegrationID rcf') repo').
  fold (createdAWS rcf1 repo (IntegrationID rcf') repo').
  assert (Hsame : forall id, ClusterCandidate (set_IntegrationID id rcf1) = Some cc ->
                             cc0 = cc).
  { intros id H. rewrite ClusterCandidate_set_IntegrationID, Hcc1 in H. congruence. }
  assert (Hknown : forall P : Prop,
             In (models.ClusterCandidate.AuthMechanism cc) models.knownMechanisms ->
             ~ In (models.ClusterCandidate.AuthMechanism cc) models.knownMechanisms -> P)
    by (intros P H1 H2; contradiction).
  destruct (String.eqb_spec (models.ClusterCandidate.AuthMechanism cc0) models.X509)
    as [E | N1].
  { dispatch_case Hrun resolveX509_creates. rewrite IntegrationID_set.
    pose proof (Hsame _ Hcc) as <-. rewrite E. simpl.
    split; [| split; [| split; [| split]]]; try (intros H; discriminate H).
    - intros tag H. injection H as <-. exact Hcall.
    - intros H. exfalso. apply H. unfold models.knownMechanisms. simpl. tauto. }
  destruct (String.eqb_spec (models.ClusterCandidate.AuthMechanism cc0) models.Bearer)
    as [E | N2].
  { dispatch_case Hrun resolveToken_creates. rewrite IntegrationID_set.
    pose proof (Hsame _ Hcc) as <-. rewrite E. simpl.
    split; [| split; [| split; [| split]]]; try (intros H; discriminate H).
    - intros tag H. injection H as <-. exact Hcall.
    - intros H. exfalso. apply H. unfold models.knownMechanisms. simpl. tauto. }
  destruct (String.eqb_spec (models.ClusterCandidate.AuthMechanism cc0) models.Basic)
    as [E | N3].
  { dispatch_case Hrun resolveBasic_creates. rewrite IntegrationID_set.
    pose proof (Hsame _ Hcc) as <-. rewrite E. simpl.
    split; [| split; [| split; [| split]]]; try (intros H; discriminate H).
    - intros tag H. injection H as <-. exact Hcall.
    - intros H. exfalso. apply H. unfold models.knownMechanisms. simpl. tauto. }
  destruct (String.eqb_spec (models.ClusterCandidate.AuthMechanism cc0) models.Local)
    as [E | N4].
  { dispatch_case Hrun resolveLocal_creates. rewrite IntegrationID_set.
    pose proof (Hsame _ Hcc) as <-. rewrite E. simpl.
    split; [| split; [| split; [| split]]]; try (intros H; discriminate H).
    - intros tag H. injection H as <-. exact Hcall.
    - intros H. exfalso. apply H. unfold models.knownMechanisms. simpl. tauto. }
  destruct (String.eqb_spec (models.ClusterCandidate.AuthMechanism cc0) models.OIDC)
    as [E | N5].
  { dispatch_case Hrun resolveOIDC_creates. rewrite IntegrationID_set.
    pose proof (Hsame _ Hcc) as <-. rewrite E. simpl.
    split; [| split; [| split; [| split]]]; try (intros H; discriminate H).
    - intros tag H. discriminate H.
    - intros _. exact Hcall.
    - intros H. exfalso. apply H. unfold models.knownMechanisms. simpl. tauto. }
  destruct (String.eqb_spec (models.ClusterCandidate.AuthMechanism cc0) models.GCP)
    as [E | N6].
  { dispatch_case Hrun resolveGCP_creates. rewrite IntegrationID_set.
    pose proof (Hsame _ Hcc) as <-. rewrite E. simpl.
    split; [| split; [| split; [| split]]]; try (intros H; discriminate H).
    - intros tag H. discriminate H.
    - intros _. exact Hcall.
    - intros H. exfalso. apply H. unfold models.knownMechanisms. simpl. tauto. }
  destruct (String.eqb_spec (models.ClusterCandidate.AuthMechanism cc0) models.AWS)
    as [E | N7].
  { dispatch_case Hrun resolveAWS_creates. rewrite IntegrationID_set.
    pose proof (Hsame _ Hcc) as <-. rewrite E. simpl.
    split; [| split; [| split; [| split]]]; try (intros H; discriminate H).
    - intros tag H. discriminate H.
    - intros _. exact Hcall.
    - intros H. exfalso. apply H. unfold models.knownMechanisms. simpl. tauto. }
  cbv beta iota in Hrun. injection Hrun as <- <-. rewrite IntegrationID_set.
  pose proof (Hsame _ Hcc) as <-.
  apply String.eqb_neq in N1, N2, N3, N4.
  rewrite N1, N2, N3, N4.
  split; [intros tag H; discriminate H |].
  split; [intros H; contradiction |].
  split; [intros H; contradiction |].
  split; [intros H; contradiction |].
  auto.
Qed.

(** X6, on the sample X509 candidate. *)
Lemma ResolveIntegration_creates_owned_record_witness :
  exists rcf' repo',
    ResolveIntegration (sample.parser sample.conf) (sample.form sample.noOverrides)
      (sample.repo sample.x509Candidate) = (Ok tt, rcf', repo')
    /\ createdKube ints.KubeX509 (sample.form sample.noOverrides)
         (sample.repo sample.x509Candidate) (IntegrationID rcf') repo'.
Proof.
  assert (E : exists rcf' repo',
             ResolveIntegration (sample.parser sample.conf) (sample.form sample.noOverrides)
               (sample.repo sample.x509Candidate) = (Ok tt, rcf', repo')
             /\ ClusterCandidate rcf' = Some sample.x509Candidate)
    by (do 2 eexists; split; vm_compute; reflexivity).
  destruct E as (rcf' & repo' & Hrun & Hcc). exists rcf', repo'. split; [exact Hrun |].
  destruct (ResolveIntegration_creates_owned_record (sample.parser sample.conf)
              (sample.form sample.noOverrides) rcf' (sample.repo sample.x509Candidate)
              repo' sample.x509Candidate Hrun Hcc) as (Hkube & _).
  apply Hkube. reflexivity.
Defined.

(** X7: when the context of the kubeconfig names a user that has no
    entry, [ResolveIntegration] ends in a run-time panic for the X509,
    bearer-token, basic-auth and OIDC mechanisms: their resolvers read
    the fields of the nil user at once. Nothing is persisted. *)
Theorem ResolveIntegration_missing_user_panics
    (GetRawConfigFromBytes : list byte -> result api.Config.t)
    (rcf : ResolveClusterForm.t) (repo : Repository)
    (cc : models.ClusterCandidate.t) (rawConf : api.Config.t)
    (context : api.Context.t) :
  ReadClusterCandidate (ClusterCandidateID rcf) repo = (Ok cc, repo) ->
  GetRawConfigFromBytes (models.ClusterCandidate.Kubeconfig cc) = Ok rawConf ->
  api.Config.Contexts rawConf !! api.Config.CurrentContext rawConf = Some context ->
  api.Config.AuthInfos rawConf !! api.Context.AuthInfo context = None ->
  In (models.ClusterCandidate.AuthMechanism cc)
     [models.X509; models.Bearer; models.Basic; models.OIDC] ->
  ResolveIntegration GetRawConfigFromBytes rcf repo =
    (Panic, set_RawConf (Some rawConf) (set_ClusterCandidate (Some cc) rcf), repo).
Proof.
  intros Hread Hparse Hctx Huser Hm.
  unfold ResolveIntegration. rewrite Hread, Hparse, Hctx. cbv zeta. rewrite Huser.
  simpl in Hm. destruct Hm as [<- | [<- | [<- | [<- | []]]]]; reflexivity.
Qed.

(** X7, on an X509 candidate whose user entry is missing. *)
Lemma ResolveIntegration_missing_user_witness :
  ResolveIntegration (sample.parser fixtures.confNoUser) (sample.form sample.noOverrides)
    (sample.repo sample.x509Candidate) =
    (Panic,
     sample.resolvedForm sample.noOverrides sample.x509Candidate fixtures.confNoUser 0,
     sample.repo sample.x509Candidate).
Proof.
  apply (ResolveIntegration_missing_user_panics (sample.parser fixtures.confNoUser)
           (sample.form sample.noOverrides) (sample.repo sample.x509Candidate)
           sample.x509Candidate fixtures.confNoUser sample.context).
  - reflexivity.
  - reflexivity.
  - vm_compute. reflexivity.
  - vm_compute. reflexivity.
  - left. reflexivity.
Defined.

Lemma RawConf_set_IntegrationID id rcf : RawConf (set_IntegrationID id rcf) = RawConf rcf.
Proof. destruct rcf; reflexivity. Qed.

Lemma RawConf_set c rcf : RawConf (set_RawConf c rcf) = c.
Proof. destruct rcf; reflexivity. Qed.

(** The form that a successful [ResolveIntegration] leaves: the
    candidate and the parsed kubeconfig are stored on it. *)
Lemma ResolveIntegration_Ok_form
    (GetRawConfigFromBytes : list byte -> result api.Config.t)
    (rcf rcf' : ResolveClusterForm.t) (repo repo' : Repository)
    (cc : models.ClusterCandidate.t) (rawConf : api.Config.t) :
  ReadClusterCandidate (ClusterCandidateID rcf) repo = (Ok cc, repo) ->
  GetRawConfigFromBytes (models.ClusterCandidate.Kubeconfig cc) = Ok rawConf ->
  ResolveIntegration GetRawConfigFromBytes rcf repo = (Ok tt, rcf', repo') ->
  ClusterCandidate rcf' = Some cc /\ RawConf rcf' = Some rawConf
  /\ Resolver rcf' = Resolver rcf.
Proof.
  intros Hread Hparse Hrun. unfold ResolveIntegration in Hrun.
  rewrite Hread, Hparse in Hrun.
  destruct (api.Config.Contexts rawConf !! api.Config.CurrentContext rawConf)
    as [context |]; try discriminate Hrun.
  cbv zeta in Hrun.
  repeat match type of Hrun with
         | context [if ?c then _ else _] => destruct c
         end;
    cbv beta iota in Hrun;
    try match type of Hrun with
        | match ?call with _ => _ end = _ =>
            destruct call as [[id | e |] repo1]; try discriminate Hrun
        end;
    injection Hrun as <- <-; destruct rcf; auto.
Qed.

(** X8: when the user entry is missing and [ResolveIntegration] succeeds
    all the same (the local-config, GCP and AWS resolvers never look at
    the user), the [ResolveCluster] that follows panics while building
    the descriptor, and the repository keeps the integration without
    any cluster. *)
Theorem missing_user_orphans_integration
    (GetRawConfigFromBytes : list byte -> result api.Config.t)
    (url_Parse : string -> result url.URL) (url_String : url.URL -> string)
    (rcf rcf' : ResolveClusterForm.t) (repo repo' : Repository)
    (cc : models.ClusterCandidate.t) (rawConf : api.Config.t)
    (context : api.Context.t) :
  ReadClusterCandidate (ClusterCandidateID rcf) repo = (Ok cc, repo) ->
  GetRawConfigFromBytes (models.ClusterCandidate.Kubeconfig cc) = Ok rawConf ->
  api.Config.Contexts rawConf !! api.Config.CurrentContext rawConf = Some context ->
  api.Config.AuthInfos rawConf !! api.Context.AuthInfo context = None ->
  ResolveIntegration GetRawConfigFromBytes rcf repo = (Ok tt, rcf', repo') ->
  ResolveCluster url_Parse url_String rcf' repo' = (Panic, repo').
Proof.
  intros Hread Hparse Hctx Huser Hrun.
  destruct (ResolveIntegration_Ok_form _ _ _ _ _ _ _ Hread Hparse Hrun)
    as (Hcc & Hraw & _).
  unfold ResolveCluster, mbind, lift, buildCluster.
  rewrite Hraw. cbn [deref bind]. rewrite Hctx. cbn [deref bind].
  rewrite Hcc, Huser. cbn [deref bind].
  destruct (api.Config.Clusters rawConf !! api.Context.Cluster context); reflexivity.
Qed.

(** X8, on a GCP candidate with key material in the overrides. *)
Lemma missing_user_orphans_integration_witness :
  exists rcf' repo',
    ResolveIntegration (sample.parser fixtures.confNoUser)
      (sample.form fixtures.gcpOverrides) (sample.repo fixtures.gcpCandidate)
      = (Ok tt, rcf', repo')
    /\ length (gcpIntegrations repo') = 1%nat
    /\ ResolveCluster sample.parseURL sample.printURL rcf' repo' = (Panic, repo').
Proof.
  assert (E : exists rcf' repo',
             ResolveIntegration (sample.parser fixtures.confNoUser)
               (sample.form fixtures.gcpOverrides) (sample.repo fixtures.gcpCandidate)
               = (Ok tt, rcf', repo')
             /\ length (gcpIntegrations repo') = 1%nat)
    by (do 2 eexists; split; vm_compute; reflexivity).
  destruct E as (rcf' & repo' & Hrun & Hlen). exists rcf', repo'.
  split; [exact Hrun |]. split; [exact Hlen |].
  apply (missing_user_orphans_integration (sample.parser fixtures.confNoUser)
           sample.parseURL sample.printURL (sample.form fixtures.gcpOverrides) rcf'
           (sample.repo fixtures.gcpCandidate) repo' fixtures.gcpCandidate
           fixtures.confNoUser sample.context).
  - reflexivity.
  - reflexivity.
  - vm_compute. reflexivity.
  - vm_compute. reflexivity.
  - exact Hrun.
Defined.

(** X9: what three resolvers never read. The local-config resolver
    depends neither on the overrides nor on the user entry; the GCP and
    AWS resolvers do not depend on the user entry. *)
Theorem resolvers_ignore_unused_inputs
    (rcf : ResolveClusterForm.t) (repo : Repository)
    (resolver1 resolver2 : option models.ClusterResolverAll.t)
    (authInfo1 authInfo2 : option api.AuthInfo.t) :
  resolveLocal (set_Resolver resolver1 rcf) repo authInfo1 =
    resolveLocal (set_Resolver resolver2 rcf) repo authInfo2
  /\ resolveGCP rcf repo authInfo1 = resolveGCP rcf repo authInfo2
  /\ resolveAWS rcf repo authInfo1 = resolveAWS rcf repo authInfo2.
Proof. destruct rcf. repeat split; reflexivity. Qed.

Lemma decode_never_panics (src : list ascii) :
  forall dbuf dst, base64.decode src dbuf dst <> Panic.
Proof.
  induction src as [| c rest IH]; intros dbuf dst; simpl.
  - destruct dbuf; discriminate.
  - destruct (base64.decodeMap c).
    + destruct dbuf as [| d0 [| d1 [| d2 [| d3 more]]]]; apply IH.
    + destruct (base64.isNewline c); [apply IH |].
      destruct (negb (Ascii.eqb c base64.padChar)); [discriminate |].
      destruct dbuf as [| d0 [| d1 [| d2 [| d3 more]]]]; try discriminate.
      * destruct (base64.skipNewlines rest) as [| c2 rest2]; [discriminate |].
        destruct (negb (Ascii.eqb c2 base64.padChar)); [discriminate |].
        destruct (base64.atEnd (base64.skipNewlines rest2)); discriminate.
      * destruct (base64.atEnd (base64.skipNewlines rest)); discriminate.
Qed.

(** X10: an override wins even when it decodes to nothing. A non-empty
    client-certificate override whose decoding is empty (text made of
    line breaks only) makes the X509 resolution fail and persist
    nothing, although the kubeconfig may hold a certificate. *)
Theorem resolveX509_empty_decoding_fails
    (rcf : ResolveClusterForm.t) (repo : Repository) (authInfo : api.AuthInfo.t)
    (resolver : models.ClusterResolverAll.t) :
  Resolver rcf = Some resolver ->
  models.ClusterResolverAll.ClientCertData resolver <> "" ->
  base64.DecodeString (models.ClusterResolverAll.ClientCertData resolver) = Ok [] ->
  exists e, resolveX509 rcf repo (Some authInfo) = (Err e, repo).
Proof.
  intros Hres Hne Hdec. apply nonempty_string_true in Hne.
  unfold_resolver. rewrite Hres, Hne, Hdec.
  pose proof (decode_never_panics
                (list_ascii_of_string (models.ClusterResolverAll.ClientKeyData resolver))
                [] []) as Hpanic.
  fold (base64.DecodeString (models.ClusterResolverAll.ClientKeyData resolver)) in Hpanic.
  destruct (nonempty_string (models.ClusterResolverAll.ClientKeyData resolver)).
  - destruct (base64.DecodeString (models.ClusterResolverAll.ClientKeyData resolver))
      as [key | e |]; [| eauto | contradiction].
    destruct (nonempty_bytes (api.AuthInfo.ClientCertificateData authInfo)),
      (nonempty_bytes (api.AuthInfo.ClientKeyData authInfo)); simpl; eauto.
  - destruct (nonempty_bytes (api.AuthInfo.ClientCertificateData authInfo)),
      (nonempty_bytes (api.AuthInfo.ClientKeyData authInfo)); simpl; eauto.
Qed.

(** X10, with an override that is a single line feed. *)
Lemma resolveX509_empty_decoding_witness :
  exists e,
    resolveX509 (sample.form fixtures.newlineOverride)
      (sample.repo sample.x509Candidate) (Some sample.authInfo) =
      (Err e, sample.repo sample.x509Candidate).
Proof.
  apply (resolveX509_empty_decoding_fails (sample.form fixtures.newlineOverride)
           (sample.repo sample.x509Candidate) sample.authInfo fixtures.newlineOverride).
  - reflexivity.
  - discriminate.
  - reflexivity.
Defined.

(** ** The builder *)

Lemma provenance_set_CertificateAuthorityData v c :
  provenance (models.Cluster.set_CertificateAuthorityData v c) = provenance c.
Proof. destruct c; reflexivity. Qed.

Lemma provenance_set_Server v c : provenance (models.Cluster.set_Server v c) = provenance c.
Proof. destruct c; reflexivity. Qed.

Lemma provenance_switch (m : models.ClusterAuth) (id : N) (c : models.Cluster.t) :
  provenance
    (if String.eqb m models.X509 || String.eqb m models.Bearer
        || String.eqb m models.Basic || String.eqb m models.Local
     then models.Cluster.set_KubeIntegrationID id c
     else if String.eqb m models.OIDC
     then models.Cluster.set_OIDCIntegrationID id c
     else if String.eqb m models.GCP
     then models.Cluster.set_GCPIntegrationID id c
     else if String.eqb m models.AWS
     then models.Cluster.set_AWSIntegrationID id c
     else c) = provenance c.
Proof.
  destruct c.
  destruct (_ || _); [reflexivity |].
  destruct (String.eqb m models.OIDC); [reflexivity |].
  destruct (String.eqb m models.GCP); [reflexivity |].
  destruct (String.eqb m models.AWS); reflexivity.
Qed.

Lemma CertificateAuthorityData_set_Server v c :
  models.Cluster.CertificateAuthorityData (models.Cluster.set_Server v c)
  = models.Cluster.CertificateAuthorityData c.
Proof. destruct c; reflexivity. Qed.

Lemma CertificateAuthorityData_set v c :
  models.Cluster.CertificateAuthorityData
    (models.Cluster.set_CertificateAuthorityData v c) = v.
Proof. destruct c; reflexivity. Qed.

Lemma CertificateAuthorityData_switch (m : models.ClusterAuth) (id : N)
    (c : models.Cluster.t) :
  models.Cluster.CertificateAuthorityData
    (if String.eqb m models.X509 || String.eqb m models.Bearer
        || String.eqb m models.Basic || String.eqb m models.Local
     then models.Cluster.set_KubeIntegrationID id c
     else if String.eqb m models.OIDC
     then models.Cluster.set_OIDCIntegrationID id c
     else if String.eqb m models.GCP
     then models.Cluster.set_GCPIntegrationID id c
     else if String.eqb m models.AWS
     then models.Cluster.set_AWSIntegrationID id c
     else c) = models.Cluster.CertificateAuthorityData c.
Proof.
  destruct c.
  destruct (_ || _); [reflexivity |].
  destruct (String.eqb m models.OIDC); [reflexivity |].
  destruct (String.eqb m models.GCP); [reflexivity |].
  destruct (String.eqb m models.AWS); reflexivity.
Qed.

(** The builder on a form whose sections are all present, opened up to
    its two fallible steps. *)
Ltac open_builder Hraw Hctx Hcl Hai Hcc Hres :=
  unfold buildCluster;
  rewrite Hraw; cbn [deref bind]; rewrite Hctx; cbn [deref bind];
  rewrite Hcc, Hcl, Hai, Hres; cbn [deref bind];
  match goal with
  | |- context [models.Cluster.set_CertificateAuthorityData _ ?c] =>
      match c with
      | (if _ then _ else _) => set (c0 := c) in *
      end
  end.

(** X11: what a built descriptor takes over. Mechanism, project id and
    name come from the candidate (the project id of the form is not
    consulted), the locations of origin, the TLS server name, the
    skip-verify flag and the impersonated user from the kubeconfig
    entries of the context, the impersonated groups are joined with
    commas in their order, and the identifier is left at zero. *)
Theorem buildCluster_provenance
    (url_Parse : string -> result url.URL) (url_String : url.URL -> string)
    (rcf : ResolveClusterForm.t) (rawConf : api.Config.t)
    (kcContext : api.Context.t) (kcCluster : api.Cluster.t)
    (kcAuthInfo : api.AuthInfo.t) (cc : models.ClusterCandidate.t)
    (cluster : models.Cluster.t) :
  RawConf rcf = Some rawConf ->
  api.Config.Contexts rawConf !! api.Config.CurrentContext rawConf = Some kcContext ->
  api.Config.Clusters rawConf !! api.Context.Cluster kcContext = Some kcCluster ->
  api.Config.AuthInfos rawConf !! api.Context.AuthInfo kcContext = Some kcAuthInfo ->
  ClusterCandidate rcf = Some cc ->
  buildCluster url_Parse url_String rcf = Ok cluster ->
  provenance cluster =
    (0, models.ClusterCandidate.AuthMechanism cc, models.ClusterCandidate.ProjectID cc,
     models.ClusterCandidate.Name cc, api.Cluster.LocationOfOrigin kcCluster,
     api.Cluster.TLSServerName kcCluster, api.Cluster.InsecureSkipTLSVerify kcCluster,
     api.AuthInfo.LocationOfOrigin kcAuthInfo, api.AuthInfo.Impersonate kcAuthInfo,
     strings.Join (api.AuthInfo.ImpersonateGroups kcAuthInfo) ",").
Proof.
  intros Hraw Hctx Hcl Hai Hcc Hbuild.
  destruct (Resolver rcf) as [resolver |] eqn:Hres.
  2:{ unfold buildCluster in Hbuild. rewrite Hraw in Hbuild. cbn [deref bind] in Hbuild.
      rewrite Hctx in Hbuild. cbn [deref bind] in Hbuild.
      rewrite Hcc, Hcl, Hai, Hres in Hbuild. discriminate Hbuild. }
  revert Hbuild. open_builder Hraw Hctx Hcl Hai Hcc Hres. intros Hbuild.
  assert (H0 : provenance c0 =
               (0, models.ClusterCandidate.AuthMechanism cc,
                models.ClusterCandidate.ProjectID cc, models.ClusterCandidate.Name cc,
                api.Cluster.LocationOfOrigin kcCluster, api.Cluster.TLSServerName kcCluster,
                api.Cluster.InsecureSkipTLSVerify kcCluster,
                api.AuthInfo.LocationOfOrigin kcAuthInfo,
                api.AuthInfo.Impersonate kcAuthInfo,
                strings.Join (api.AuthInfo.ImpersonateGroups kcAuthInfo) ",")).
  { subst c0. destruct (nonempty_bytes _), (api.AuthInfo.ImpersonateGroups kcAuthInfo);
      reflexivity. }
  apply bind_Ok in Hbuild as (c1 & Hc1 & Hbuild).
  apply bind_Ok in Hbuild as (c2 & Hc2 & Hbuild).
  injection Hbuild as <-. rewrite provenance_switch, <- H0.
  assert (H1 : provenance c1 = provenance c0).
  { destruct (nonempty_string (models.ClusterResolverAll.ClusterCAData resolver)).
    - apply bind_Ok in Hc1 as (decoded & _ & Hc1). injection Hc1 as <-.
      apply provenance_set_CertificateAuthorityData.
    - injection Hc1 as <-. reflexivity. }
  rewrite <- H1.
  destruct (nonempty_string (models.ClusterResolverAll.ClusterHostname resolver)).
  - apply bind_Ok in Hc2 as (serverURL & _ & Hc2). injection Hc2 as <-.
    apply provenance_set_Server.
  - injection Hc2 as <-. reflexivity.
Qed.

(** X11, on a user who impersonates the groups a, b and c. *)
Lemma buildCluster_provenance_witness :
  exists cluster,
    buildCluster sample.parseURL sample.printURL
      (sample.resolvedForm sample.noOverrides sample.x509Candidate
         fixtures.confImpersonator 1) = Ok cluster
    /\ provenance cluster =
         (0, models.X509, 7, "cluster-a", "/home/user/.kube/config", "", false,
          "", "root", "a,b,c").
Proof.
  assert (E : exists cluster,
             buildCluster sample.parseURL sample.printURL
               (sample.resolvedForm sample.noOverrides sample.x509Candidate
                  fixtures.confImpersonator 1) = Ok cluster)
    by (eexists; vm_compute; reflexivity).
  destruct E as [cluster E]. exists cluster. split; [exact E |].
  apply (buildCluster_provenance sample.parseURL sample.printURL
           (sample.resolvedForm sample.noOverrides sample.x509Candidate
              fixtures.confImpersonator 1)
           fixtures.confImpersonator sample.context sample.cluster fixtures.impersonator
           sample.x509Candidate cluster).
  - reflexivity.
  - vm_compute. reflexivity.
  - vm_compute. reflexivity.
  - vm_compute. reflexivity.
  - reflexivity.
  - exact E.
Defined.

(** X12: the certificate-authority data of the descriptor. A non-empty
    override is always decoded as base64: when decoding fails the build
    fails with the decoder's error, before the hostname override is
    looked at; a build that succeeds carries the decoded override, or
    the kubeconfig's data when there is no override. *)
Theorem buildCluster_ca_data
    (url_Parse : string -> result url.URL) (url_String : url.URL -> string)
    (rcf : ResolveClusterForm.t) (rawConf : api.Config.t)
    (kcContext : api.Context.t) (kcCluster : api.Cluster.t)
    (kcAuthInfo : api.AuthInfo.t) (cc : models.ClusterCandidate.t)
    (resolver : models.ClusterResolverAll.t) :
  RawConf rcf = Some rawConf ->
  api.Config.Contexts rawConf !! api.Config.CurrentContext rawConf = Some kcContext ->
  api.Config.Clusters rawConf !! api.Context.Cluster kcContext = Some kcCluster ->
  api.Config.AuthInfos rawConf !! api.Context.AuthInfo kcContext = Some kcAuthInfo ->
  ClusterCandidate rcf = Some cc ->
  Resolver rcf = Some resolver ->
  let override := models.ClusterResolverAll.ClusterCAData resolver in
  match (if nonempty_string override then base64.DecodeString override
         else Ok (api.Cluster.CertificateAuthorityData kcCluster)) with
  | Ok caData =>
      forall cluster,
        buildCluster url_Parse url_String rcf = Ok cluster ->
        models.Cluster.CertificateAuthorityData cluster = caData
  | Err e => buildCluster url_Parse url_String rcf = Err e
  | Panic => buildCluster url_Parse url_String rcf = Panic
  end.
Proof.
  intros Hraw Hctx Hcl Hai Hcc Hres override. subst override.
  open_builder Hraw Hctx Hcl Hai Hcc Hres.
  assert (H0 : models.Cluster.CertificateAuthorityData c0
               = api.Cluster.CertificateAuthorityData kcCluster).
  { subst c0.
    destruct (nonempty_bytes (api.Cluster.CertificateAuthorityData kcCluster)) eqn:Hn;
      destruct (api.AuthInfo.ImpersonateGroups kcAuthInfo);
      try reflexivity; apply nonempty_bytes_false in Hn; rewrite Hn; reflexivity. }
  destruct (nonempty_string (models.ClusterResolverAll.ClusterCAData resolver)).
  - destruct (base64.DecodeString (models.ClusterResolverAll.ClusterCAData resolver))
      as [decoded | e |]; cbn [bind]; [| reflexivity | reflexivity].
    intros cluster Hbuild.
    apply bind_Ok in Hbuild as (c2 & Hc2 & Hbuild). injection Hbuild as <-.
    rewrite CertificateAuthorityData_switch.
    destruct (nonempty_string (models.ClusterResolverAll.ClusterHostname resolver)).
    + apply bind_Ok in Hc2 as (serverURL & _ & Hc2). injection Hc2 as <-.
      rewrite CertificateAuthorityData_set_Server. apply CertificateAuthorityData_set.
    + injection Hc2 as <-. apply CertificateAuthorityData_set.
  - cbn [bind]. intros cluster Hbuild.
    apply bind_Ok in Hbuild as (c2 & Hc2 & Hbuild). injection Hbuild as <-.
    rewrite CertificateAuthorityData_switch, <- H0.
    destruct (nonempty_string (models.ClusterResolverAll.ClusterHostname resolver)).
    + apply bind_Ok in Hc2 as (serverURL & _ & Hc2). injection Hc2 as <-.
      apply CertificateAuthorityData_set_Server.
    + injection Hc2 as <-. reflexivity.
Qed.

(** X12, on a PEM override: the build fails although the hostname
    override and the server URL are fine. *)
Lemma buildCluster_ca_data_witness :
  buildCluster sample.parseURL sample.printURL
    (sample.resolvedForm fixtures.pemCAOverride sample.x509Candidate sample.conf 1)
  = Err CorruptInputError.
Proof.
  apply (buildCluster_ca_data sample.parseURL sample.printURL
           (sample.resolvedForm fixtures.pemCAOverride sample.x509Candidate sample.conf 1)
           sample.conf sample.context sample.cluster sample.authInfo
           sample.x509Candidate fixtures.pemCAOverride).
  - reflexivity.
  - vm_compute. reflexivity.
  - vm_compute. reflexivity.
  - vm_compute. reflexivity.
  - reflexivity.
  - reflexivity.
Defined.

(** X13: without a hostname override the server string of the candidate
    is taken as it is and never parsed: on a form whose sections are
    present and whose CA override is empty or decodes, the build
    succeeds whatever [url.Parse] would say. *)
Theorem buildCluster_without_hostname
    (url_Parse : string -> result url.URL) (url_String : url.URL -> string)
    (rcf : ResolveClusterForm.t) (rawConf : api.Config.t)
    (kcContext : api.Context.t) (kcCluster : api.Cluster.t)
    (kcAuthInfo : api.AuthInfo.t) (cc : models.ClusterCandidate.t)
    (resolver : models.ClusterResolverAll.t) :
  RawConf rcf = Some rawConf ->
  api.Config.Contexts rawConf !! api.Config.CurrentContext rawConf = Some kcContext ->
  api.Config.Clusters rawConf !! api.Context.Cluster kcContext = Some kcCluster ->
  api.Config.AuthInfos rawConf !! api.Context.AuthInfo kcContext = Some kcAuthInfo ->
  ClusterCandidate rcf = Some cc ->
  Resolver rcf = Some resolver ->
  (models.ClusterResolverAll.ClusterCAData resolver = ""
   \/ exists decoded,
        base64.DecodeString (models.ClusterResolverAll.ClusterCAData resolver) = Ok decoded) ->
  models.ClusterResolverAll.ClusterHostname resolver = "" ->
  exists cluster,
    buildCluster url_Parse url_String rcf = Ok cluster
    /\ models.Cluster.Server cluster = models.ClusterCandidate.Server cc.
Proof.
  intros Hraw Hctx Hcl Hai Hcc Hres Hca Hhost.
  apply nonempty_string_false in Hhost.
  open_builder Hraw Hctx Hcl Hai Hcc Hres.
  assert (Hs0 : models.Cluster.Server c0 = models.ClusterCandidate.Server cc).
  { subst c0. destruct (nonempty_bytes _), (api.AuthInfo.ImpersonateGroups kcAuthInfo);
      reflexivity. }
  rewrite Hhost.
  destruct Hca as [Hempty | [decoded Hdec]].
  - apply nonempty_string_false in Hempty. rewrite Hempty. cbn [bind].
    eexists. split; [reflexivity |]. rewrite Server_switch. exact Hs0.
  - destruct (nonempty_string (models.ClusterResolverAll.ClusterCAData resolver)).
    + rewrite Hdec. cbn [bind]. eexists. split; [reflexivity |].
      rewrite Server_switch, Server_set_CertificateAuthorityData. exact Hs0.
    + cbn [bind]. eexists. split; [reflexivity |]. rewrite Server_switch. exact Hs0.
Qed.

(** X13, on a server string that is no URL, with a reader that rejects
    every URL. *)
Lemma buildCluster_without_hostname_witness :
  exists cluster,
    buildCluster fixtures.rejectURL sample.printURL
      (sample.resolvedForm sample.noOverrides fixtures.oddServerCandidate sample.conf 1)
    = Ok cluster
    /\ models.Cluster.Server cluster = "not a url".
Proof.
  apply (buildCluster_without_hostname fixtures.rejectURL sample.printURL
           (sample.resolvedForm sample.noOverrides fixtures.oddServerCandidate sample.conf 1)
           sample.conf sample.context sample.cluster sample.authInfo
           fixtures.oddServerCandidate sample.noOverrides).
  - reflexivity.
  - vm_compute. reflexivity.
  - vm_compute. reflexivity.
  - vm_compute. reflexivity.
  - reflexivity.
  - reflexivity.
  - left. reflexivity.
  - reflexivity.
Defined.

(** X14: when the context names a cluster or a user that has no entry
    in the kubeconfig, the builder panics: the fields of the nil entry
    are read while the descriptor is put together. *)
Theorem buildCluster_missing_entry_panics
    (url_Parse : string -> result url.URL) (url_String : url.URL -> string)
    (rcf : ResolveClusterForm.t) (rawConf : api.Config.t)
    (kcContext : api.Context.t) :
  RawConf rcf = Some rawConf ->
  api.Config.Contexts rawConf !! api.Config.CurrentContext rawConf = Some kcContext ->
  api.Config.Clusters rawConf !! api.Context.Cluster kcContext = None
  \/ api.Config.AuthInfos rawConf !! api.Context.AuthInfo kcContext = None ->
  buildCluster url_Parse url_String rcf = Panic.
Proof.
  intros Hraw Hctx Hmissing. unfold buildCluster.
  rewrite Hraw. cbn [deref bind]. rewrite Hctx. cbn [deref bind].
  destruct (ClusterCandidate rcf); [| reflexivity]. cbn [deref bind].
  destruct Hmissing as [-> | ->]; [reflexivity |].
  destruct (api.Config.Clusters rawConf !! api.Context.Cluster kcContext); reflexivity.
Qed.

(** X14, on a kubeconfig without the user of its context. *)
Lemma buildCluster_missing_entry_witness :
  buildCluster sample.parseURL sample.printURL
    (sample.resolvedForm sample.noOverrides sample.x509Candidate fixtures.confNoUser 1)
  = Panic.
Proof.
  apply (buildCluster_missing_entry_panics sample.parseURL sample.printURL
           (sample.resolvedForm sample.noOverrides sample.x509Candidate
              fixtures.confNoUser 1)
           fixtures.confNoUser sample.context).
  - reflexivity.
  - vm_compute. reflexivity.
  - right. vm_compute. reflexivity.
Defined.

(** ** Flattening the impersonated groups *)

Lemma Join_cons2 (x y : string) (rest : list string) (sep : string) :
  strings.Join (x :: y :: rest) sep = x +:+ sep +:+ strings.Join (y :: rest) sep.
Proof. reflexivity. Qed.

Lemma comma_split (x y s t : string) :
  commaFree x = true -> commaFree y = true ->
  x +:+ "," +:+ s = y +:+ "," +:+ t -> x = y /\ s = t.
Proof.
  revert y. induction x as [| a x IH]; intros y Hx Hy H.
  - destruct y as [| c y]; cbn in H.
    + injection H as H. auto.
    + injection H as Hc _. subst c. cbn in Hy. discriminate Hy.
  - destruct y as [| c y]; cbn in H.
    + injection H as Ha _. subst a. cbn in Hx. discriminate Hx.
    + injection H as Ha H. subst c. cbn in Hx, Hy.
      apply andb_true_iff in Hx as [_ Hx]. apply andb_true_iff in Hy as [_ Hy].
      destruct (IH y Hx Hy H) as [Hxy Hst]. subst. auto.
Qed.

Lemma comma_inside (x y s : string) :
  commaFree y = true -> x +:+ "," +:+ s <> y.
Proof.
  revert y. induction x as [| a x IH]; intros y Hy H.
  - cbn in H. subst y. cbn in Hy. discriminate Hy.
  - destruct y as [| c y]; cbn in H; [discriminate H |].
    injection H as Ha H. subst c. cbn in Hy. apply andb_true_iff in Hy as [_ Hy].
    exact (IH y Hy H).
Qed.

(** X15: the flattening of the impersonated groups loses nothing as long
    as no group name holds a comma: two non-empty lists of comma-free
    names that are joined to the same string are the same list, in the
    same order. *)
Theorem impersonate_groups_join_injective (groups1 groups2 : list string) :
  groups1 <> [] -> groups2 <> [] ->
  forallb commaFree groups1 = true -> forallb commaFree groups2 = true ->
  strings.Join groups1 "," = strings.Join groups2 "," ->
  groups1 = groups2.
Proof.
  revert groups2.
  induction groups1 as [| x [| x2 rest1] IH]; intros groups2 Hne1 Hne2 Hf1 Hf2 H;
    [contradiction | |];
    destruct groups2 as [| y [| y2 rest2]]; try contradiction.
  - simpl in H. congruence.
  - rewrite Join_cons2 in H. simpl in H, Hf1.
    apply andb_true_iff in Hf1 as [Hx _].
    symmetry in H. exfalso. exact (comma_inside _ _ _ Hx H).
  - rewrite Join_cons2 in H. simpl in Hf2. apply andb_true_iff in Hf2 as [Hy _].
    exfalso. exact (comma_inside _ _ _ Hy H).
  - rewrite !Join_cons2 in H.
    change (forallb commaFree (x :: x2 :: rest1))
      with (commaFree x && forallb commaFree (x2 :: rest1)) in Hf1.
    change (forallb commaFree (y :: y2 :: rest2))
      with (commaFree y && forallb commaFree (y2 :: rest2)) in Hf2.
    apply andb_true_iff in Hf1 as [Hx Hf1]. apply andb_true_iff in Hf2 as [Hy Hf2].
    destruct (comma_split _ _ _ _ Hx Hy H) as [-> Hrest].
    f_equal. apply IH; [discriminate | discriminate | exact Hf1 | exact Hf2 | exact Hrest].
Qed.

(** X15, on two groups. *)
Lemma impersonate_groups_join_injective_witness :
  strings.Join ["a"; "b"] "," = strings.Join ["a"; "b"] "," /\ ["a"; "b"] = ["a"; "b"].
Proof.
  split; [reflexivity |].
  apply (impersonate_groups_join_injective ["a"; "b"] ["a"; "b"]).
  - discriminate.
  - discriminate.
  - reflexivity.
  - reflexivity.
  - reflexivity.
Defined.

(** ** Persisting the descriptor *)

Lemma ResolveCluster_inv
    (url_Parse : string -> result url.URL) (url_String : url.URL -> string)
    (rcf : ResolveClusterForm.t) (repo repo' : Repository) (cluster : models.Cluster.t) :
  ResolveCluster url_Parse url_String rcf repo = (Ok cluster, repo') ->
  exists built,
    buildCluster url_Parse url_String rcf = Ok built
    /\ cluster = models.Cluster.set_ID (nextID (clusters repo)) built
    /\ repo' = set_clusters (clusters repo ++ [cluster]) repo.
Proof.
  unfold ResolveCluster, mbind, lift, CreateCluster.
  destruct (buildCluster url_Parse url_String rcf) as [built | e |];
    try (intros H; discriminate H).
  destruct (canQuery repo); intros H; [| discriminate H].
  injection H as <- <-. eauto.
Qed.

(** X16: [ResolveCluster] writes to the clusters only. Whatever its
    outcome the integrations and the candidates stay as they were; a
    success adds one cluster, and anything else (a failed or panicking
    build, a failed write) leaves the repository unchanged. *)
Theorem ResolveCluster_writes_clusters_only
    (url_Parse : string -> result url.URL) (url_String : url.URL -> string)
    (rcf : ResolveClusterForm.t) (repo : Repository) :
  let '(r, repo') := ResolveCluster url_Parse url_String rcf repo in
  integrations repo' = integrations repo
  /\ clusterCandidates repo' = clusterCandidates repo
  /\ match r with
     | Ok cluster => clusters repo' = clusters repo ++ [cluster]
     | _ => repo' = repo
     end.
Proof.
  unfold ResolveCluster, mbind, lift, CreateCluster.
  destruct (buildCluster url_Parse url_String rcf) as [built | e |]; [| auto ..].
  destruct (canQuery repo) eqn:Hq; [| auto].
  destruct repo; auto.
Qed.

Lemma clusters_set_clusters l repo : clusters (set_clusters l repo) = l.
Proof. destruct repo; reflexivity. Qed.

Lemma integrations_set_clusters l repo :
  integrations (set_clusters l repo) = integrations repo.
Proof. destruct repo; reflexivity. Qed.

Lemma clusterCandidates_set_clusters l repo :
  clusterCandidates (set_clusters l repo) = clusterCandidates repo.
Proof. destruct repo; reflexivity. Qed.

Lemma slots_set_ID v c : slots (models.Cluster.set_ID v c) = slots c.
Proof. destruct c; reflexivity. Qed.

Lemma slots_switch_known (m : models.ClusterAuth) (id : N) (c : models.Cluster.t) :
  In m models.knownMechanisms -> id <> 0 -> slots c = (0, 0, 0, 0) ->
  List.filter (fun x => negb (x =? 0))
    (let '(k, o, g, a) :=
       slots (if String.eqb m models.X509 || String.eqb m models.Bearer
                 || String.eqb m models.Basic || String.eqb m models.Local
              then models.Cluster.set_KubeIntegrationID id c
              else if String.eqb m models.OIDC
              then models.Cluster.set_OIDCIntegrationID id c
              else if String.eqb m models.GCP
              then models.Cluster.set_GCPIntegrationID id c
              else if String.eqb m models.AWS
              then models.Cluster.set_AWSIntegrationID id c
              else c) in [k; o; g; a]) = [id].
Proof.
  intros Hknown Hid Hslots. apply N.eqb_neq in Hid.
  destruct c. unfold slots in *. simpl in Hslots. injection Hslots as -> -> -> ->.
  apply known_cases in Hknown.
  destruct Hknown as [-> | [-> | [-> | [-> | [-> | [-> | ->]]]]]];
    simpl; rewrite Hid; reflexivity.
Qed.

(** X17: the two steps together. After a successful [ResolveIntegration]
    on a candidate with one of the seven mechanisms, a successful
    [ResolveCluster] persists a cluster whose only non-zero credential
    slot holds the integration id left on the form, with a fresh
    non-zero identifier of its own. The candidate is still in the
    repository afterwards: resolution does not consume it. *)
Theorem resolve_then_create
    (GetRawConfigFromBytes : list byte -> result api.Config.t)
    (url_Parse : string -> result url.URL) (url_String : url.URL -> string)
    (rcf rcf' : ResolveClusterForm.t) (repo repo' repo'' : Repository)
    (cc : models.ClusterCandidate.t) (cluster : models.Cluster.t) :
  ResolveIntegration GetRawConfigFromBytes rcf repo = (Ok tt, rcf', repo') ->
  ClusterCandidate rcf' = Some cc ->
  In (models.ClusterCandidate.AuthMechanism cc) models.knownMechanisms ->
  ResolveCluster url_Parse url_String rcf' repo' = (Ok cluster, repo'') ->
  nonzeroSlots cluster = [IntegrationID rcf']
  /\ IntegrationID rcf' <> 0
  /\ models.Cluster.ID cluster = nextID (clusters repo)
  /\ clusters repo'' = clusters repo ++ [cluster]
  /\ integrations repo'' = integrations repo'
  /\ clusterCandidates repo'' = clusterCandidates repo.
Proof.
  intros Hrun Hcc Hknown Hcreate.
  pose proof (ResolveIntegration_known_nonzero_id _ _ _ _ _ _ Hrun Hcc Hknown) as Hid.
  pose proof (ResolveIntegration_keeps GetRawConfigFromBytes rcf repo) as Hframe.
  rewrite Hrun in Hframe. destruct Hframe as (_ & Hout & _).
  unfold outsideIntegrations in Hout. injection Hout as Hq Hcands Hclusters.
  apply ResolveCluster_inv in Hcreate as (built & Hbuild & -> & ->).
  destruct (buildCluster_switch _ _ _ _ _ Hcc Hbuild) as (c0 & Hslots & Hbuilt).
  cbv zeta in Hbuilt.
  split.
  { pose proof (slots_switch_known _ _ c0 Hknown Hid Hslots) as H.
    rewrite <- Hbuilt in H.
    unfold nonzeroSlots.
    rewrite <- (slots_set_ID (nextID (clusters repo')) built) in H.
    unfold slots in H. exact H. }
  split; [exact Hid |].
  rewrite clusters_set_clusters, integrations_set_clusters,
    clusterCandidates_set_clusters, Hclusters, Hcands.
  split; [destruct built; reflexivity | auto].
Qed.

(** X17, on the sample X509 candidate. *)
Lemma resolve_then_create_witness :
  exists rcf' repo' cluster repo'',
    ResolveIntegration (sample.parser sample.conf) (sample.form sample.noOverrides)
      (sample.repo sample.x509Candidate) = (Ok tt, rcf', repo')
    /\ ResolveCluster sample.parseURL sample.printURL rcf' repo' = (Ok cluster, repo'')
    /\ nonzeroSlots cluster = [1]
    /\ models.Cluster.ID cluster = 1
    /\ clusterCandidates repo'' = [sample.x509Candidate].
Proof.
  assert (E : exists rcf' repo' cluster repo'',
             ResolveIntegration (sample.parser sample.conf) (sample.form sample.noOverrides)
               (sample.repo sample.x509Candidate) = (Ok tt, rcf', repo')
             /\ ResolveCluster sample.parseURL sample.printURL rcf' repo'
                = (Ok cluster, repo'')
             /\ ClusterCandidate rcf' = Some sample.x509Candidate
             /\ IntegrationID rcf' = 1)
    by (do 4 eexists; split; [vm_compute; reflexivity |];
        split; [vm_compute; reflexivity |]; split; reflexivity).
  destruct E as (rcf' & repo' & cluster & repo'' & Hrun & Hcreate & Hcc & Hid).
  exists rcf', repo', cluster, repo''.
  split; [exact Hrun |]. split; [exact Hcreate |].
  destruct (resolve_then_create (sample.parser sample.conf) sample.parseURL
              sample.printURL (sample.form sample.noOverrides) rcf'
              (sample.repo sample.x509Candidate) repo' repo'' sample.x509Candidate
              cluster Hrun Hcc) as (Hslots & _ & Hcid & _ & _ & Hcands).
  - unfold models.knownMechanisms. left. reflexivity.
  - exact Hcreate.
  - rewrite Hid in Hslots. auto.
Defined.

(** ** The fields of an OIDC integration *)

(** X18: the OIDC resolver requires no field. For a user with an
    auth-provider section, a form with resolver values and a writable
    repository it always succeeds; each field of the record is the
    entry of the provider config under its key, or empty when the key
    is missing, except that a non-empty issuer-CA override replaces the
    config's certificate-authority data. For a user without an
    auth-provider section the resolver panics. *)
Theorem resolveOIDC_fields
    (rcf : ResolveClusterForm.t) (repo : Repository) (authInfo : api.AuthInfo.t)
    (resolver : models.ClusterResolverAll.t) :
  Resolver rcf = Some resolver ->
  canQuery repo = true ->
  match api.AuthInfo.AuthProvider authInfo with
  | Some authProvider =>
      let entry key :=
        list_byte_of_string
          (default "" (api.AuthProviderConfig.Config authProvider !! key)) in
      let id := nextID (oidcIntegrations repo) in
      resolveOIDC rcf repo (Some authInfo) =
        (Ok id,
         set_oidcIntegrations
           (oidcIntegrations repo ++
              [ints.OIDCIntegration.mk id ints.OIDCKube (UserID rcf) (ProjectID rcf)
                 (entry "idp-issuer-url") (entry "client-id") (entry "client-secret")
                 (if nonempty_string (models.ClusterResolverAll.OIDCIssuerCAData resolver)
                  then list_byte_of_string
                         (models.ClusterResolverAll.OIDCIssuerCAData resolver)
                  else entry "idp-certificate-authority-data")
                 (entry "id-token") (entry "refresh-token")]) repo)
  | None => resolveOIDC rcf repo (Some authInfo) = (Panic, repo)
  end.
Proof.
  intros Hres Hq. unfold_resolver. rewrite Hres, Hq.
  destruct (api.AuthInfo.AuthProvider authInfo) as [authProvider |]; [| reflexivity].
  cbv zeta.
  destruct (nonempty_string (models.ClusterResolverAll.OIDCIssuerCAData resolver));
    repeat match goal with
           | |- context [?m !! ?k] => destruct (m !! k)
           end; reflexivity.
Qed.

(** X18, on an empty provider config. *)
Lemma resolveOIDC_fields_witness :
  resolveOIDC (sample.form sample.noOverrides) (sample.repo sample.x509Candidate)
    (Some (api.AuthInfo.mk "" [] [] "" "" [] "" ""
             (Some (api.AuthProviderConfig.mk "oidc" ∅)))) =
    (Ok 1,
     set_oidcIntegrations
       [ints.OIDCIntegration.mk 1 ints.OIDCKube 3 7 [] [] [] [] [] []]
       (sample.repo sample.x509Candidate)).
Proof.
  pose proof (resolveOIDC_fields (sample.form sample.noOverrides)
                (sample.repo sample.x509Candidate)
                (api.AuthInfo.mk "" [] [] "" "" [] "" ""
                   (Some (api.AuthProviderConfig.mk "oidc" ∅)))
                sample.noOverrides eq_refl eq_refl) as H.
  vm_compute in H. vm_compute. exact H.
Defined.

(** * Properties of the Helm values reader and writer *)

Section HelmProperties.

Context {Values Chart Query Agent World : Type}.
Variable Chart_Values : Chart -> Values.
Variable CoalesceValues : Values -> Values -> Values.
Variable QueryValues : Values -> list Query -> result Values.
Variable UpgradeReleaseByValues :
  Agent -> string -> Values -> World -> result (helm.Release Values Chart) * World.

(** X19: [Update] reaches the agent only for a writer whose release name
    is empty. With a release name set it fails with "release not set"
    and leaves the cluster alone; with none it asks the agent to
    upgrade the release named by the empty string and, when that
    succeeds, returns the values it was given. *)
Theorem Update_only_without_release_name
    (w : helm.ValuesTemplateWriter Chart Agent) (vals : Values) (world : World) :
  if nonempty_string (helm.ReleaseName w)
  then helm.Update UpgradeReleaseByValues w vals world =
         (Err (errors_New "release not set"), world)
  else helm.Update UpgradeReleaseByValues w vals world =
         match UpgradeReleaseByValues (helm.Writer_Agent w) "" vals world with
         | (Ok _, world') => (Ok vals, world')
         | (Err e, world') => (Err e, world')
         | (Panic, world') => (Panic, world')
         end.
Proof.
  unfold helm.Update.
  destruct (nonempty_string (helm.ReleaseName w)) eqn:Hname; [reflexivity |].
  apply nonempty_string_false in Hname. rewrite Hname. reflexivity.
Qed.

Lemma ValuesFromTarget_RegisterQuery
    (r : helm.ValuesTemplateReader Values Chart Query) (q : Query) :
  helm.ValuesFromTarget Chart_Values CoalesceValues (helm.RegisterQuery r q)
  = helm.ValuesFromTarget Chart_Values CoalesceValues r.
Proof. reflexivity. Qed.

Lemma Queries_fold_RegisterQuery
    (qs : list Query) (r : helm.ValuesTemplateReader Values Chart Query) :
  helm.Queries (fold_left helm.RegisterQuery qs r)
  = helm.Queries r ++ qs
  /\ helm.Reader_Release (fold_left helm.RegisterQuery qs r)
     = helm.Reader_Release r
  /\ helm.Reader_Chart (fold_left helm.RegisterQuery qs r)
     = helm.Reader_Chart r.
Proof.
  revert r. induction qs as [| q qs IH]; intros r; simpl.
  - rewrite app_nil_r. auto.
  - destruct (IH (helm.RegisterQuery r q)) as (Hq & Hr & Hc).
    rewrite Hq, Hr, Hc. simpl. rewrite <- app_assoc. auto.
Qed.

(** X20: queries are run in the order of their registration. Reading
    after registering [qs] one by one reads the same target as before
    and hands [QueryValues] the queries that were already there
    followed by [qs], in that order. *)
Theorem Read_after_RegisterQuery
    (qs : list Query) (r : helm.ValuesTemplateReader Values Chart Query) :
  helm.Read Chart_Values CoalesceValues QueryValues
    (fold_left helm.RegisterQuery qs r)
  = (values <- helm.ValuesFromTarget Chart_Values CoalesceValues r ;;
     QueryValues values (helm.Queries r ++ qs)).
Proof.
  destruct (Queries_fold_RegisterQuery qs r) as (Hq & Hr & Hc).
  unfold helm.Read, helm.ValuesFromTarget. rewrite Hq, Hr, Hc. reflexivity.
Qed.

(** X21: the release comes first. With a release set, the values read
    do not depend on the chart of the reader at all: the read succeeds
    when the release has a chart of its own and panics when that chart
    is nil; with neither release nor chart it fails with "must set
    release or chart to read values". *)
Theorem ValuesFromTarget_release_first
    (queries : list Query) (release : option (helm.Release Values Chart))
    (chart1 chart2 : option Chart) :
  match release with
  | Some rel =>
      helm.ValuesFromTarget Chart_Values CoalesceValues
        (helm.mkReader queries release chart1)
      = helm.ValuesFromTarget Chart_Values CoalesceValues
          (helm.mkReader queries release chart2)
      /\ match helm.Release_Chart rel with
         | Some _ =>
             is_Ok (helm.ValuesFromTarget Chart_Values CoalesceValues
                      (helm.mkReader queries release chart1)) = true
         | None =>
             helm.ValuesFromTarget Chart_Values CoalesceValues
               (helm.mkReader queries release chart1) = Panic
         end
  | None =>
      helm.ValuesFromTarget Chart_Values CoalesceValues
        (helm.mkReader queries None None)
      = Err (errors_New "must set release or chart to read values")
  end.
Proof.
  destruct release as [rel |]; [| reflexivity].
  split; [reflexivity |]. unfold helm.ValuesFromTarget. simpl.
  destruct (helm.Release_Chart rel); reflexivity.
Qed.

End HelmProperties.

(** * Properties of the tab region *)

(** X22: every tab that the component selects by itself, when it mounts
    or after an update, is the value of the first option, and it only
    does so when no default tab is given. *)
Theorem TabRegion_selects_first_option
    (prevProps props : TabRegion.PropsType) (v : string) :
  In v (TabRegion.componentDidMount props)
  \/ In v (TabRegion.componentDidUpdate prevProps props) ->
  exists first rest,
    TabRegion.items (TabRegion.options props) = first :: rest
    /\ v = TabRegion.value first
    /\ TabRegion.truthy (TabRegion.defaultTab props) = false.
Proof.
  assert (Hdefault : In v (TabRegion.setDefaultTab props) ->
                     exists first rest,
                       TabRegion.items (TabRegion.options props) = first :: rest
                       /\ v = TabRegion.value first
                       /\ TabRegion.truthy (TabRegion.defaultTab props) = false).
  { unfold TabRegion.setDefaultTab.
    destruct (TabRegion.truthy (TabRegion.defaultTab props)); simpl; [tauto |].
    destruct (TabRegion.items (TabRegion.options props)) as [| first rest]; simpl;
      [tauto |].
    intros [<- | []]. eauto. }
  intros [H | H]; [exact (Hdefault H) |].
  unfold TabRegion.componentDidUpdate in H.
  destruct (negb _); [| destruct H].
  destruct (List.filter _ _); [exact (Hdefault H) | destruct H].
Qed.

(** X22, on a region mounted with two options and no default tab. *)
Lemma TabRegion_selects_first_option_witness :
  exists first rest,
    [TabRegion.mkOption "Overview" "overview"; TabRegion.mkOption "Logs" "logs"]
    = first :: rest
    /\ "overview" = TabRegion.value first
    /\ TabRegion.truthy None = false.
Proof.
  apply (TabRegion_selects_first_option
           (TabRegion.mkProps
              (TabRegion.mkOptions 0
                 [TabRegion.mkOption "Overview" "overview";
                  TabRegion.mkOption "Logs" "logs"]) "" None)
           (TabRegion.mkProps
              (TabRegion.mkOptions 0
                 [TabRegion.mkOption "Overview" "overview";
                  TabRegion.mkOption "Logs" "logs"]) "" None)
           "overview").
  left. left. reflexivity.
Defined.

(** X23: an update never moves the selection away from a tab that is
    still among the options, and never acts when the options array is
    the same object as before, even if its content no longer holds the
    current tab. *)
Theorem TabRegion_update_keeps_valid_tab (prevProps props : TabRegion.PropsType) :
  In (TabRegion.currentTab props)
     (map TabRegion.value (TabRegion.items (TabRegion.options props)))
  \/ TabRegion.ref (TabRegion.options prevProps) = TabRegion.ref (TabRegion.options props) ->
  TabRegion.componentDidUpdate prevProps props = [].
Proof.
  intros [Hin | Href]; unfold TabRegion.componentDidUpdate.
  - destruct (negb _); [| reflexivity].
    destruct (List.filter _ _) as [| x xs] eqn:Hfilter; [| reflexivity].
    exfalso. apply in_map_iff in Hin as (o & Hvalue & Ho).
    assert (Hof : In o (List.filter
                          (fun x => String.eqb (TabRegion.value x)
                                      (TabRegion.currentTab props))
                          (TabRegion.items (TabRegion.options props)))).
    { apply filter_In. split; [exact Ho |]. apply String.eqb_eq. exact Hvalue. }
    rewrite Hfilter in Hof. destruct Hof.
  - rewrite Href, Nat.eqb_refl. reflexivity.
Qed.

(** X23, on a region whose current tab is its second option. *)
Lemma TabRegion_update_keeps_valid_tab_witness :
  TabRegion.componentDidUpdate
    (TabRegion.mkProps (TabRegion.mkOptions 0 []) "logs" None)
    (TabRegion.mkProps
       (TabRegion.mkOptions 1
          [TabRegion.mkOption "Overview" "overview"; TabRegion.mkOption "Logs" "logs"])
       "logs" None) = [].
Proof.
  apply (TabRegion_update_keeps_valid_tab
           (TabRegion.mkProps (TabRegion.mkOptions 0 []) "logs" None)
           (TabRegion.mkProps
              (TabRegion.mkOptions 1
                 [TabRegion.mkOption "Overview" "overview";
                  TabRegion.mkOption "Logs" "logs"])
              "logs" None)).
  left. simpl. right. left. reflexivity.
Defined.
